(** * Interstellar swap client: order construction, signing and submission

    A shallow embedding of the browser client of the Interstellar
    EVM <-> Stellar swap (the [Swap] component of [swap.tsx], the
    [interstellar-api] module and the [models/order] interfaces), with the
    parts of the JavaScript runtime the client relies on: IEEE 754 doubles
    ([Number]), [parseFloat], [Number.prototype.toString], [String]
    operations and [JSON.stringify].

    JavaScript strings are modelled by [string]; each [ascii] stands for
    one code unit below 256. *)

From Stdlib Require Import ZArith QArith Lia List Bool Ascii String SpecFloat.
From Stdlib Require DecimalString DecimalFacts DecimalN.
Import ListNotations.

Local Open Scope string_scope.
Local Open Scope Z_scope.

(** ** Strings of the runtime *)

Module Str.

Definition code (c : ascii) : Z := Z.of_N (N_of_ascii c).

Definition is_digit (c : ascii) : bool :=
  (48 <=? code c) && (code c <=? 57).

Definition digit_val (c : ascii) : Z := code c - 48.

(** Decimal numeral of a non-negative integer, without leading zeros. *)
Definition of_Z (z : Z) : string :=
  DecimalString.NilZero.string_of_uint (N.to_uint (Z.to_N z)).

Fixpoint repeat0 (n : nat) : string :=
  match n with
  | O => ""
  | S n' => String "0" (repeat0 n')
  end.

Definition zeros (n : Z) : string := repeat0 (Z.to_nat n).

Definition len (s : string) : Z := Z.of_nat (String.length s).

(** [s.substring(start, end)] for [0 <= start <= end]. *)
Definition substring (i j : nat) (s : string) : string :=
  String.substring i (j - i) s.

Fixpoint rev_acc (s acc : string) : string :=
  match s with
  | "" => acc
  | String c s' => rev_acc s' (String c acc)
  end.

Fixpoint drop_zeros (s : string) : string :=
  match s with
  | String "0" s' => drop_zeros s'
  | _ => s
  end.

(** Removes the zeros a numeral ends with. *)
Definition strip_trailing_zeros (s : string) : string :=
  rev_acc (drop_zeros (rev_acc s "")) "".

End Str.

(** ** Numbers: IEEE 754 binary64 *)

Module Num.

Definition prec : Z := 53.
Definition emax : Z := 1024.

Definition number : Type := spec_float.

Definition NaN : number := S754_nan.

Definition isFinite (x : number) : bool :=
  match x with
  | S754_zero _ | S754_finite _ _ _ => true
  | S754_infinity _ | S754_nan => false
  end.

Definition mul : number -> number -> number := SFmul prec emax.

(** The double nearest to the rational [n / d] ([0 <= n], [0 < d]), ties to
    even, with the sign [neg]. *)
Definition of_ratio (neg : bool) (n d : Z) : number :=
  let '(q, e, l) := SFdiv_core_binary prec emax n 0 d 0 in
  binary_round_aux prec emax neg q e l.

(** The Number value of the mathematical value [digits * 10 ^ exp10]. *)
Definition of_decimal (neg : bool) (digits exp10 : Z) : number :=
  of_ratio neg (digits * 10 ^ Z.max 0 exp10) (10 ^ Z.max 0 (- exp10)).

Definition of_Z (z : Z) : number :=
  of_decimal (z <? 0) (Z.abs z) 0.

Definition eqb (x y : number) : bool :=
  match x, y with
  | S754_zero a, S754_zero b => Bool.eqb a b
  | S754_infinity a, S754_infinity b => Bool.eqb a b
  | S754_nan, S754_nan => true
  | S754_finite a m e, S754_finite b m' e' =>
      Bool.eqb a b && Pos.eqb m m' && Z.eqb e e'
  | _, _ => false
  end.

(** *** [parseFloat] *)

(** StrWhiteSpaceChar among the code units below 256: TAB, LF, VT, FF, CR,
    SP and NBSP. *)
Definition isStrWhiteSpaceChar (c : ascii) : bool :=
  let n := Str.code c in
  ((9 <=? n) && (n <=? 13)) || (n =? 32) || (n =? 160).

Fixpoint trimStart (s : string) : string :=
  match s with
  | String c s' => if isStrWhiteSpaceChar c then trimStart s' else s
  | "" => ""
  end.

(** The longest run of DecimalDigits [s] starts with: its value on top of
    [acc], the number of digits read on top of [n], and the rest. *)
Fixpoint read_digits (s : string) (acc n : Z) : Z * Z * string :=
  match s with
  | String c s' =>
      if Str.is_digit c then read_digits s' (acc * 10 + Str.digit_val c) (n + 1)
      else (acc, n, s)
  | "" => (acc, n, s)
  end.

(** ExponentPart, when [s] starts with one; otherwise the exponent is 0. *)
Definition read_exponent (s : string) : Z :=
  match s with
  | String c s1 =>
      if (Str.code c =? 101) || (Str.code c =? 69) then
        let '(neg, s2) :=
          match s1 with
          | String "+" s2 => (false, s2)
          | String "-" s2 => (true, s2)
          | _ => (false, s1)
          end in
        let '(v, n, _) := read_digits s2 0 0 in
        if n =? 0 then 0 else if neg then - v else v
      else 0
  | "" => 0
  end.

(** A StrUnsignedDecimalLiteral as read: [Infinity], or the mathematical
    value [digits * 10 ^ exp10]. *)
Variant literal : Type :=
  | LitInfinity
  | LitDecimal (digits exp10 : Z).

(** The longest prefix of [s] that is a StrUnsignedDecimalLiteral, when
    there is one. *)
Definition readUnsigned (s : string) : option literal :=
  if String.prefix "Infinity" s then Some LitInfinity
  else
    let '(iv, ni, s1) := read_digits s 0 0 in
    let '(mv, nf, s2) :=
      match s1 with
      | String "." s1' =>
          let '(fv, nf, s2) := read_digits s1' iv 0 in
          if (ni =? 0) && (nf =? 0) then (0, 0, s1) else (fv, nf, s2)
      | _ => (iv, 0, s1)
      end in
    if (ni =? 0) && (nf =? 0) then None
    else Some (LitDecimal mv (read_exponent s2 - nf)).

(** The sign and the literal [parseFloat] reads: leading white space is
    dropped, then a sign, then the longest literal. *)
Definition readSigned (s : string) : bool * option literal :=
  match trimStart s with
  | String "+" s' => (false, readUnsigned s')
  | String "-" s' => (true, readUnsigned s')
  | s' => (false, readUnsigned s')
  end.

Definition parseFloat (s : string) : number :=
  match readSigned s with
  | (_, None) => NaN
  | (neg, Some LitInfinity) => S754_infinity neg
  | (neg, Some (LitDecimal d x)) => of_decimal neg d x
  end.

(** *** [Number.prototype.toString] (radix 10) *)

(** The [n] with [10 ^ (n - 1) <= num / den < 10 ^ n]. *)
Definition decimal_exponent (num den : Z) : Z :=
  if den <=? num then Str.len (Str.of_Z (num / den))
  else 1 - Str.len (Str.of_Z ((den + num - 1) / num - 1)).

(** The candidates with [k] digits around [num / den], of which one that
    reads back as [x] and is nearest to [num / den] is kept (the even one
    at equal distance). *)
Definition shortest_at (x : number) (num den n k : Z) : option Z :=
  let a := num * 10 ^ Z.max 0 (k - n) in
  let b := den * 10 ^ Z.max 0 (n - k) in
  let lo := a / b in
  let hi := lo + 1 in
  let ok_lo := eqb (of_decimal false lo (n - k)) x in
  let ok_hi := eqb (of_decimal false hi (n - k)) x in
  match ok_lo, ok_hi with
  | true, true =>
      match 2 * (a - lo * b) ?= b with
      | Lt => Some lo
      | Gt => Some hi
      | Eq => Some (if Z.even lo then lo else hi)
      end
  | true, false => Some lo
  | false, true => Some hi
  | false, false => None
  end.

Fixpoint shortest_from (x : number) (num den n k : Z) (fuel : nat) : Z * Z :=
  match fuel with
  | O => (num * 10 ^ Z.max 0 (k - n) / (den * 10 ^ Z.max 0 (n - k)), k)
  | S fuel' =>
      match shortest_at x num den n k with
      | Some s => (s, k)
      | None => shortest_from x num den n (k + 1) fuel'
      end
  end.

(** The digits [s] (as a numeral without trailing zeros) and the exponent
    [n] of the shortest decimal that denotes the positive double
    [m * 2 ^ e]: its value is [0.s * 10 ^ n]. Seventeen digits always
    suffice for a double. *)
Definition shortest (m : positive) (e : Z) : string * Z :=
  let num := Zpos m * 2 ^ Z.max 0 e in
  let den := 2 ^ Z.max 0 (- e) in
  let n := decimal_exponent num den in
  let '(s, k) := shortest_from (S754_finite false m e) num den n 1 17 in
  let ds := Str.of_Z s in
  (Str.strip_trailing_zeros ds, n + (Str.len ds - k)).

Definition format_exp (e : Z) : string :=
  (if e <? 0 then "-" else "+") ++ Str.of_Z (Z.abs e).

Definition format (ds : string) (n : Z) : string :=
  let k := Str.len ds in
  if (k <=? n) && (n <=? 21) then ds ++ Str.zeros (n - k)
  else if (0 <? n) && (n <=? 21) then
    String.substring 0 (Z.to_nat n) ds ++ "." ++
    String.substring (Z.to_nat n) (Z.to_nat (k - n)) ds
  else if (-6 <? n) && (n <=? 0) then "0." ++ Str.zeros (- n) ++ ds
  else if k =? 1 then ds ++ "e" ++ format_exp (n - 1)
  else
    String.substring 0 1 ds ++ "." ++
    String.substring 1 (Z.to_nat (k - 1)) ds ++ "e" ++ format_exp (n - 1).

Definition toString (x : number) : string :=
  match x with
  | S754_nan => "NaN"
  | S754_zero _ => "0"
  | S754_infinity s => (if s then "-" else "") ++ "Infinity"
  | S754_finite s m e =>
      let '(ds, n) := shortest m e in
      (if s then "-" else "") ++ format ds n
  end.

End Num.

(** ** JSON values and [JSON.stringify] *)

Module JSON.

#[local] Unset Elimination Schemes.

Inductive value : Type :=
  | JNull
  | JBool (b : bool)
  | JNum (x : Num.number)
  | JStr (s : string)
  | JArr (items : list value)
  | JObj (props : list (string * value)).

#[local] Set Elimination Schemes.

(** ToBoolean, as [!value] uses it. *)
Definition truthy (v : value) : bool :=
  match v with
  | JNull => false
  | JBool b => b
  | JNum (S754_zero _) | JNum S754_nan => false
  | JNum _ => true
  | JStr s => negb (String.eqb s "")
  | JArr _ | JObj _ => true
  end.

Definition dquote : ascii := "034"%char.
Definition backslash : ascii := "092"%char.

Definition hex_digit (n : Z) : ascii :=
  ascii_of_N (Z.to_N (if n <? 10 then 48 + n else 87 + n)).

(** One code unit inside a JSON string (QuoteJSONString). *)
Definition escape_char (c : ascii) : string :=
  let n := Str.code c in
  if n =? 8 then "\b"
  else if n =? 9 then "\t"
  else if n =? 10 then "\n"
  else if n =? 12 then "\f"
  else if n =? 13 then "\r"
  else if n =? 34 then String backslash (String dquote "")
  else if n =? 92 then "\\"
  else if n <? 32 then
    "\u00" ++ String (hex_digit (n / 16)) (String (hex_digit (n mod 16)) "")
  else String c "".

Fixpoint escape (s : string) : string :=
  match s with
  | "" => ""
  | String c s' => escape_char c ++ escape s'
  end.

Definition quote (s : string) : string :=
  String dquote (escape s ++ String dquote "").

(** [JSON.stringify(v)] without indentation: properties in insertion
    order, a Number that is not finite as [null]. *)
Fixpoint stringify (v : value) : string :=
  match v with
  | JNull => "null"
  | JBool true => "true"
  | JBool false => "false"
  | JNum x => if Num.isFinite x then Num.toString x else "null"
  | JStr s => quote s
  | JArr items =>
      "[" ++
      (fix items_to l :=
         match l with
         | [] => "]"
         | [x] => stringify x ++ "]"
         | x :: l' => stringify x ++ "," ++ items_to l'
         end) items
  | JObj props =>
      "{" ++
      (fix props_to l :=
         match l with
         | [] => "}"
         | [(k, x)] => quote k ++ ":" ++ stringify x ++ "}"
         | (k, x) :: l' => quote k ++ ":" ++ stringify x ++ "," ++ props_to l'
         end) props
  end.

(** The properties of an object after its opening brace. *)
Definition stringify_props : list (string * value) -> string :=
  fix props_to l :=
    match l with
    | [] => "}"
    | [(k, x)] => quote k ++ ":" ++ stringify x ++ "}"
    | (k, x) :: l' => quote k ++ ":" ++ stringify x ++ "," ++ props_to l'
    end.

(** Property access [v.k]: the last property named [k]. *)
Fixpoint get (k : string) (props : list (string * value)) : option value :=
  match props with
  | [] => None
  | (k', x) :: rest =>
      match get k rest with
      | Some y => Some y
      | None => if String.eqb k k' then Some x else None
      end
  end.

End JSON.

(** ** The order model ([models/order]) *)

Record OrderData : Type := {
  salt : string;
  src_chain : Num.number;
  dst_chain : Num.number;
  make_amount : string;
  take_amount : string
}.

Record Signature : Type := {
  signed_message : string;
  signer_address : string
}.

Record Order : Type := {
  order_data : OrderData;
  signature : Signature
}.

(** The objects as the client builds them, property by property. *)
Definition OrderData_value (od : OrderData) : JSON.value :=
  JSON.JObj
    [("salt", JSON.JStr (salt od));
     ("src_chain", JSON.JNum (src_chain od));
     ("dst_chain", JSON.JNum (dst_chain od));
     ("make_amount", JSON.JStr (make_amount od));
     ("take_amount", JSON.JStr (take_amount od))].

Definition Signature_value (sg : Signature) : JSON.value :=
  JSON.JObj
    [("signed_message", JSON.JStr (signed_message sg));
     ("signer_address", JSON.JStr (signer_address sg))].

Definition Order_value (o : Order) : JSON.value :=
  JSON.JObj
    [("order_data", OrderData_value (order_data o));
     ("signature", Signature_value (signature o))].

(** ** Decoding on the relayer's side *)

Module Decode.

Import JSON.

Definition is_ws (c : ascii) : bool :=
  let n := Str.code c in
  (n =? 32) || (n =? 9) || (n =? 10) || (n =? 13).

Fixpoint skip_ws (s : string) : string :=
  match s with
  | String c s' => if is_ws c then skip_ws s' else s
  | "" => ""
  end.

Definition hex_val (c : ascii) : option Z :=
  let n := Str.code c in
  if (48 <=? n) && (n <=? 57) then Some (n - 48)
  else if (97 <=? n) && (n <=? 102) then Some (n - 87)
  else if (65 <=? n) && (n <=? 70) then Some (n - 55)
  else None.

Definition hex4 (h1 h2 h3 h4 : ascii) : option Z :=
  match hex_val h1, hex_val h2, hex_val h3, hex_val h4 with
  | Some a, Some b, Some c, Some d => Some (((a * 16 + b) * 16 + c) * 16 + d)
  | _, _, _, _ => None
  end.

(** The code unit a two-character escape stands for. *)
Definition unescape (e : ascii) : option ascii :=
  let n := Str.code e in
  if n =? 34 then Some dquote
  else if n =? 92 then Some backslash
  else if n =? 47 then Some "/"%char
  else if n =? 98 then Some "008"%char
  else if n =? 102 then Some "012"%char
  else if n =? 110 then Some "010"%char
  else if n =? 114 then Some "013"%char
  else if n =? 116 then Some "009"%char
  else None.

Definition cons_char (c : ascii) (r : option (string * string))
  : option (string * string) :=
  match r with
  | Some (t, rest) => Some (String c t, rest)
  | None => None
  end.

(** The characters of a JSON string up to its closing quote, and what
    follows it. *)
Fixpoint parse_chars (s : string) : option (string * string) :=
  match s with
  | "" => None
  | String c s1 =>
      if Str.code c =? 34 then Some ("", s1)
      else if Str.code c =? 92 then
        match s1 with
        | "" => None
        | String e s2 =>
            if Str.code e =? 117 then
              match s2 with
              | String h1 (String h2 (String h3 (String h4 s3))) =>
                  match hex4 h1 h2 h3 h4 with
                  | Some n =>
                      if n <? 256 then
                        cons_char (ascii_of_N (Z.to_N n)) (parse_chars s3)
                      else None
                  | None => None
                  end
              | _ => None
              end
            else
              match unescape e with
              | Some c' => cons_char c' (parse_chars s2)
              | None => None
              end
        end
      else if Str.code c <? 32 then None
      else cons_char c (parse_chars s1)
  end.

Definition parse_fraction (s : string) (iv : Z) : option (Z * Z * string) :=
  match s with
  | String "." s' =>
      let '(fv, nf, rest) := Num.read_digits s' iv 0 in
      if nf =? 0 then None else Some (fv, nf, rest)
  | _ => Some (iv, 0, s)
  end.

Definition parse_exponent (s : string) : option (Z * string) :=
  match s with
  | String c s1 =>
      if (Str.code c =? 101) || (Str.code c =? 69) then
        let '(neg, s2) :=
          match s1 with
          | String "+" s2 => (false, s2)
          | String "-" s2 => (true, s2)
          | _ => (false, s1)
          end in
        let '(v, n, rest) := Num.read_digits s2 0 0 in
        if n =? 0 then None else Some (if neg then - v else v, rest)
      else Some (0, s)
  | "" => Some (0, s)
  end.

(** A JSON number: [-? int frac? exp?], no leading zeros. *)
Definition parse_number (s : string) : option (Num.number * string) :=
  let '(neg, s0) :=
    match s with
    | String "-" r => (true, r)
    | _ => (false, s)
    end in
  let '(iv, ni, s1) := Num.read_digits s0 0 0 in
  if (ni =? 0) || ((1 <? ni) && String.prefix "0" s0) then None
  else
    match parse_fraction s1 iv with
    | None => None
    | Some (mv, nf, s2) =>
        match parse_exponent s2 with
        | None => None
        | Some (x, s3) => Some (Num.of_decimal neg mv (x - nf), s3)
        end
    end.

Fixpoint drop (n : nat) (s : string) : string :=
  match n, s with
  | S n', String _ s' => drop n' s'
  | _, _ => s
  end.

(** A JSON value at the start of [s] and what follows it; [fuel] bounds
    the calls. *)
Fixpoint parse_value (fuel : nat) (s : string) : option (value * string) :=
  match fuel with
  | O => None
  | S f =>
      match skip_ws s with
      | "" => None
      | String c r =>
          if Str.code c =? 34 then
            match parse_chars r with
            | Some (t, r') => Some (JStr t, r')
            | None => None
            end
          else if Str.code c =? 91 then
            match skip_ws r with
            | String "]" r' => Some (JArr [], r')
            | _ =>
                match parse_items f r with
                | Some (l, r') => Some (JArr l, r')
                | None => None
                end
            end
          else if Str.code c =? 123 then
            match skip_ws r with
            | String "}" r' => Some (JObj [], r')
            | _ =>
                match parse_members f r with
                | Some (l, r') => Some (JObj l, r')
                | None => None
                end
            end
          else if String.prefix "null" (String c r) then
            Some (JNull, drop 3 r)
          else if String.prefix "true" (String c r) then
            Some (JBool true, drop 3 r)
          else if String.prefix "false" (String c r) then
            Some (JBool false, drop 4 r)
          else
            match parse_number (String c r) with
            | Some (x, r') => Some (JNum x, r')
            | None => None
            end
      end
  end

with parse_items (fuel : nat) (s : string) : option (list value * string) :=
  match fuel with
  | O => None
  | S f =>
      match parse_value f s with
      | Some (v, r) =>
          match skip_ws r with
          | String "," r' =>
              match parse_items f r' with
              | Some (l, r'') => Some (v :: l, r'')
              | None => None
              end
          | String "]" r' => Some ([v], r')
          | _ => None
          end
      | None => None
      end
  end

with parse_members (fuel : nat) (s : string)
  : option (list (string * value) * string) :=
  match fuel with
  | O => None
  | S f =>
      match skip_ws s with
      | String c r =>
          if Str.code c =? 34 then
            match parse_chars r with
            | Some (k, r1) =>
                match skip_ws r1 with
                | String ":" r2 =>
                    match parse_value f r2 with
                    | Some (v, r3) =>
                        match skip_ws r3 with
                        | String "," r4 =>
                            match parse_members f r4 with
                            | Some (l, r5) => Some ((k, v) :: l, r5)
                            | None => None
                            end
                        | String "}" r4 => Some ([(k, v)], r4)
                        | _ => None
                        end
                    | None => None
                    end
                | _ => None
                end
            | None => None
            end
          else None
      | "" => None
      end
  end.

(** The value a whole text denotes. *)
Definition parse (s : string) : option value :=
  match parse_value (S (String.length s)) s with
  | Some (v, r) => if String.eqb (skip_ws r) "" then Some v else None
  | None => None
  end.

Definition as_string (v : option value) : option string :=
  match v with
  | Some (JStr s) => Some s
  | _ => None
  end.

Definition as_number (v : option value) : option Num.number :=
  match v with
  | Some (JNum x) => Some x
  | _ => None
  end.

Definition OrderData_of_value (v : value) : option OrderData :=
  match v with
  | JObj props =>
      match as_string (get "salt" props),
            as_number (get "src_chain" props),
            as_number (get "dst_chain" props),
            as_string (get "make_amount" props),
            as_string (get "take_amount" props) with
      | Some s, Some sc, Some dc, Some ma, Some ta =>
          Some {| salt := s; src_chain := sc; dst_chain := dc;
                  make_amount := ma; take_amount := ta |}
      | _, _, _, _, _ => None
      end
  | _ => None
  end.

Definition Signature_of_value (v : value) : option Signature :=
  match v with
  | JObj props =>
      match as_string (get "signed_message" props),
            as_string (get "signer_address" props) with
      | Some sm, Some sa => Some {| signed_message := sm; signer_address := sa |}
      | _, _ => None
      end
  | _ => None
  end.

Definition Order_of_value (v : value) : option Order :=
  match v with
  | JObj props =>
      match get "order_data" props, get "signature" props with
      | Some od, Some sg =>
          match OrderData_of_value od, Signature_of_value sg with
          | Some od', Some sg' => Some {| order_data := od'; signature := sg' |}
          | _, _ => None
          end
      | _, _ => None
      end
  | _ => None
  end.

End Decode.

(** The canonical encoding of the payloads: [JSON.stringify] of the
    object, as [submitOrder] signs it. *)
Definition encode_OrderData (od : OrderData) : string :=
  JSON.stringify (OrderData_value od).

Definition encode_Order (o : Order) : string :=
  JSON.stringify (Order_value o).

(** Modelled from the spec: the decoder of the payloads, which lives in
    the relayer and is not among the client's sources. The spec only says
    that a payload is decoded from its JSON encoding; the text is read by
    the JSON grammar ([Decode.parse]) and the fields are taken by name. *)
Definition decode_OrderData (s : string) : option OrderData :=
  match Decode.parse s with
  | Some v => Decode.OrderData_of_value v
  | None => None
  end.

(** Modelled from the spec: the decoder of an [Order] payload, see
    [decode_OrderData]. *)
Definition decode_Order (s : string) : option Order :=
  match Decode.parse s with
  | Some v => Decode.Order_of_value v
  | None => None
  end.

(** ** Effects of the client

    What a handler does to the outside is kept as a log. A promise is
    fulfilled with a value or rejected; a rejection that nothing catches
    ends the handler. *)

Record Request : Type := {
  base : string;
  path : string;
  method : string;
  body : JSON.value
}.

Record Response : Type := { data : JSON.value }.

Inductive Effect : Type :=
  | Alert (msg : string)
  | ConsoleError (msg : string)
  | Http (r : Request).

(** The collaborators of the client: the pieces of the browser, the wallets
    and the relayer it talks to. [restRequest] stands for
    [RestApi.request] of [../rest-api], and [apiUrl] for
    [environment.apiUrl]. *)
Record World : Type := {
  apiUrl : string;
  (** [Math.random().toString(36)] *)
  random36 : string;
  (** [window.ethereum] is set *)
  ethereum : bool;
  (** [provider.getSigner()] then [signer.signMessage(msg)]; [None] when
      either promise is rejected *)
  evmSignMessage : string -> option string;
  (** [kit.signMessage(msg)]: [signedMessage] and the optional
      [signerAddress]; [None] when the promise is rejected *)
  kitSignMessage : string -> option (string * option string);
  (** the relayer's answer to a request; [None] when the request fails *)
  restRequest : Request -> option Response
}.

Variant Outcome (A : Type) : Type :=
  | Fulfilled (a : A)
  | Rejected.

Arguments Fulfilled {A} a.
Arguments Rejected {A}.

Definition Prog (A : Type) : Type := list Effect -> Outcome A * list Effect.

Definition ret {A : Type} (a : A) : Prog A := fun log => (Fulfilled a, log).

Definition bind {A B : Type} (p : Prog A) (k : A -> Prog B) : Prog B :=
  fun log =>
    match p log with
    | (Fulfilled a, log') => k a log'
    | (Rejected, log') => (Rejected, log')
    end.

Definition emit (e : Effect) : Prog unit :=
  fun log => (Fulfilled tt, (log ++ [e])%list).

(** [await] of a promise whose result the world decides. *)
Definition await {A : Type} (r : option A) : Prog A :=
  fun log =>
    match r with
    | Some a => (Fulfilled a, log)
    | None => (Rejected, log)
    end.

(** [try { p } catch (error) { h }] *)
Definition try_catch {A : Type} (p h : Prog A) : Prog A :=
  fun log =>
    match p log with
    | (Rejected, log') => h log'
    | r => r
    end.

Declare Scope prog_scope.
Delimit Scope prog_scope with prog.
Notation "x <- p ;; k" := (bind p (fun x => k))
  (at level 61, p at next level, right associativity) : prog_scope.
Notation "p ;; k" := (bind p (fun _ => k))
  (at level 61, right associativity) : prog_scope.

Definition alert (msg : string) : Prog unit := emit (Alert msg).
Definition console_error (msg : string) : Prog unit := emit (ConsoleError msg).

(** ** The relayer API ([interstellar-api]) *)

Module Api.

Section WithWorld.

Variable w : World.

(** [client.request(path, method, body)] *)
Definition request (client path method : string) (payload : JSON.value)
  : Prog Response :=
  let r := {| base := client; path := path; method := method; body := payload |} in
  (emit (Http r) ;; await (restRequest w r))%prog.

Definition getRestClient : Prog string := ret (apiUrl w).

Definition postOrder (order : Order) : Prog JSON.value :=
  (client <- getRestClient ;;
   response <- request client "order" "POST" (Order_value order) ;;
   ret (data response))%prog.

Definition postSecret (secret : string) : Prog JSON.value :=
  (client <- getRestClient ;;
   response <- request client "secret" "POST"
                 (JSON.JObj [("secret", JSON.JStr secret)]) ;;
   ret (data response))%prog.

End WithWorld.

End Api.

(** ** The [Swap] component ([swap.tsx]) *)

Module Swap.

(** The state the component keeps with [useState]. *)
Record State : Type := {
  tokensPair : string;
  freighterConnected : bool;
  metamaskConnected : bool;
  stellarAddress : option string;
  evmAddress : option string;
  xlmBalance : option Num.number;
  ethBalance : option Num.number;
  fromAmount : string;
  advancedOpen : bool;
  resolverAddress : string
}.

Definition initial : State :=
  {| tokensPair := ""; freighterConnected := false; metamaskConnected := false;
     stellarAddress := None; evmAddress := None;
     xlmBalance := None; ethBalance := None;
     fromAmount := ""; advancedOpen := false; resolverAddress := "" |}.

Definition setTokensPair (v : string) (st : State) : State :=
  {| tokensPair := v;
     freighterConnected := freighterConnected st;
     metamaskConnected := metamaskConnected st;
     stellarAddress := stellarAddress st; evmAddress := evmAddress st;
     xlmBalance := xlmBalance st; ethBalance := ethBalance st;
     fromAmount := fromAmount st; advancedOpen := advancedOpen st;
     resolverAddress := resolverAddress st |}.

Definition setFreighterConnected (v : bool) (st : State) : State :=
  {| tokensPair := tokensPair st;
     freighterConnected := v;
     metamaskConnected := metamaskConnected st;
     stellarAddress := stellarAddress st; evmAddress := evmAddress st;
     xlmBalance := xlmBalance st; ethBalance := ethBalance st;
     fromAmount := fromAmount st; advancedOpen := advancedOpen st;
     resolverAddress := resolverAddress st |}.

Definition setMetamaskConnected (v : bool) (st : State) : State :=
  {| tokensPair := tokensPair st;
     freighterConnected := freighterConnected st;
     metamaskConnected := v;
     stellarAddress := stellarAddress st; evmAddress := evmAddress st;
     xlmBalance := xlmBalance st; ethBalance := ethBalance st;
     fromAmount := fromAmount st; advancedOpen := advancedOpen st;
     resolverAddress := resolverAddress st |}.

Definition setStellarAddress (v : option string) (st : State) : State :=
  {| tokensPair := tokensPair st;
     freighterConnected := freighterConnected st;
     metamaskConnected := metamaskConnected st;
     stellarAddress := v; evmAddress := evmAddress st;
     xlmBalance := xlmBalance st; ethBalance := ethBalance st;
     fromAmount := fromAmount st; advancedOpen := advancedOpen st;
     resolverAddress := resolverAddress st |}.

Definition setEvmAddress (v : option string) (st : State) : State :=
  {| tokensPair := tokensPair st;
     freighterConnected := freighterConnected st;
     metamaskConnected := metamaskConnected st;
     stellarAddress := stellarAddress st; evmAddress := v;
     xlmBalance := xlmBalance st; ethBalance := ethBalance st;
     fromAmount := fromAmount st; advancedOpen := advancedOpen st;
     resolverAddress := resolverAddress st |}.

Definition setXlmBalance (v : option Num.number) (st : State) : State :=
  {| tokensPair := tokensPair st;
     freighterConnected := freighterConnected st;
     metamaskConnected := metamaskConnected st;
     stellarAddress := stellarAddress st; evmAddress := evmAddress st;
     xlmBalance := v; ethBalance := ethBalance st;
     fromAmount := fromAmount st; advancedOpen := advancedOpen st;
     resolverAddress := resolverAddress st |}.

Definition setEthBalance (v : option Num.number) (st : State) : State :=
  {| tokensPair := tokensPair st;
     freighterConnected := freighterConnected st;
     metamaskConnected := metamaskConnected st;
     stellarAddress := stellarAddress st; evmAddress := evmAddress st;
     xlmBalance := xlmBalance st; ethBalance := v;
     fromAmount := fromAmount st; advancedOpen := advancedOpen st;
     resolverAddress := resolverAddress st |}.

Definition setFromAmount (v : string) (st : State) : State :=
  {| tokensPair := tokensPair st;
     freighterConnected := freighterConnected st;
     metamaskConnected := metamaskConnected st;
     stellarAddress := stellarAddress st; evmAddress := evmAddress st;
     xlmBalance := xlmBalance st; ethBalance := ethBalance st;
     fromAmount := v; advancedOpen := advancedOpen st;
     resolverAddress := resolverAddress st |}.

Definition setAdvancedOpen (v : bool) (st : State) : State :=
  {| tokensPair := tokensPair st;
     freighterConnected := freighterConnected st;
     metamaskConnected := metamaskConnected st;
     stellarAddress := stellarAddress st; evmAddress := evmAddress st;
     xlmBalance := xlmBalance st; ethBalance := ethBalance st;
     fromAmount := fromAmount st; advancedOpen := v;
     resolverAddress := resolverAddress st |}.

Definition setResolverAddress (v : string) (st : State) : State :=
  {| tokensPair := tokensPair st;
     freighterConnected := freighterConnected st;
     metamaskConnected := metamaskConnected st;
     stellarAddress := stellarAddress st; evmAddress := evmAddress st;
     xlmBalance := xlmBalance st; ethBalance := ethBalance st;
     fromAmount := fromAmount st; advancedOpen := advancedOpen st;
     resolverAddress := v |}.

(** [!a] and [a || ''] for [a : string | null | undefined]. *)
Definition falsy (a : option string) : bool :=
  match a with
  | Some s => String.eqb s ""
  | None => true
  end.

Definition or_else (a : option string) (b : string) : string :=
  if falsy a then b
  else match a with Some s => s | None => b end.

(** The numeric literal [0.95]. *)
Definition rate : Num.number := Num.of_decimal false 95 (-2).

(** Handler to fill max amount. *)
Definition handleUseMax (st : State) : State :=
  match String.eqb (tokensPair st) "XLMETH", xlmBalance st with
  | true, Some b => setFromAmount (Num.toString b) st
  | _, _ =>
      match String.eqb (tokensPair st) "ETHXLM", ethBalance st with
      | true, Some b => setFromAmount (Num.toString b) st
      | _, _ => st
      end
  end.

Section WithWorld.

Variable w : World.

(** The [orderData] object [submitOrder] starts with. *)
Definition orderData (st : State) : OrderData :=
  {| salt := Str.substring 2 15 (random36 w);
     src_chain :=
       if String.eqb (tokensPair st) "XLMETH" then Num.of_Z 1 else Num.of_Z 2;
     dst_chain :=
       if String.eqb (tokensPair st) "XLMETH" then Num.of_Z 2 else Num.of_Z 1;
     make_amount := fromAmount st;
     take_amount :=
       Num.toString (Num.mul (Num.parseFloat (fromAmount st)) rate) |}.

(** The signing step of [submitOrder]; [None] when the handler has
    returned after an alert. *)
Definition signOrder (st : State) (od : OrderData) : Prog (option Signature) :=
  if String.eqb (tokensPair st) "ETHXLM" then
    if negb (ethereum w) then
      (alert "MetaMask not installed" ;; ret None)%prog
    else
      (signatureData <- await (evmSignMessage w (JSON.stringify (OrderData_value od))) ;;
       ret (Some {| signed_message := signatureData;
                    signer_address := or_else (evmAddress st) "" |}))%prog
  else if String.eqb (tokensPair st) "XLMETH" then
    if negb (freighterConnected st) || falsy (stellarAddress st) then
      (alert "Freighter not connected" ;; ret None)%prog
    else
      (signatureData <- await (kitSignMessage w (JSON.stringify (OrderData_value od))) ;;
       ret (Some {| signed_message := fst signatureData;
                    signer_address :=
                      or_else (snd signatureData)
                        (or_else (stellarAddress st) "") |}))%prog
  else
    ret (Some {| signed_message := ""; signer_address := "" |}).

Definition submitOrder (st : State) : Prog unit :=
  let od := orderData st in
  (signed <- signOrder st od ;;
   match signed with
   | None => ret tt
   | Some sg =>
       let payload := {| order_data := od; signature := sg |} in
       try_catch
         (success <- Api.postOrder w payload ;;
          if negb (JSON.truthy success) then alert "Failed to submit order"
          else ret tt)
         (console_error "Error submitting order:" ;;
          alert "Error submitting order")
   end)%prog.

End WithWorld.

(** [updateEvmAccount(address)]; [balance] is what
    [ethers.formatEther(await provider.getBalance(address))] gives, [None]
    when the balance request is rejected. *)
Definition updateEvmAccount (address balance : option string) (st : State)
  : State :=
  if falsy address then
    setEthBalance None (setEvmAddress None (setMetamaskConnected false st))
  else
    let st' := setMetamaskConnected true (setEvmAddress address st) in
    match balance with
    | Some b => setEthBalance (Some (Num.parseFloat b)) st'
    | None => st'
    end.

(** The reset effect that runs when [tokensPair] has changed. *)
Definition resetWallets (st : State) : State :=
  setFromAmount ""
    (setEthBalance None
       (setXlmBalance None
          (setEvmAddress None
             (setStellarAddress None
                (setMetamaskConnected false
                   (setFreighterConnected false st)))))).

(** What the user and the wallets do to the component. *)
Inductive Event : Type :=
  (** the pair selector changes *)
  | SelectPair (v : string)
  (** a wallet is chosen in the Freighter modal: the address
      [kit.getAddress()] gives, then the account loaded from Horizon with
      its native balance, either of which may fail *)
  | FreighterSelected (address : option string) (native : option (option string))
  | ClickDisconnectFreighter
  (** Connect MetaMask: the accounts [eth_requestAccounts] gives and the
      formatted balance of the first one *)
  | ClickConnectMetamask (accounts : option (list string)) (balance : option string)
  (** MetaMask's [accountsChanged] *)
  | AccountsChanged (accounts : list string) (balance : option string)
  (** Switch Account: whether the permission request goes through *)
  | ClickSwitchAccount (granted : bool)
  | ChangeAmount (v : string)
  | ClickMax
  | ClickSubmit
  | ChangeResolver (v : string)
  | ToggleAdvanced (open : bool).

(** Whether a Max button is rendered, and whether Submit is disabled. *)
Definition maxRendered (st : State) : bool :=
  (freighterConnected st && match xlmBalance st with Some _ => true | None => false end)
  || (metamaskConnected st && match ethBalance st with Some _ => true | None => false end).

Definition submitDisabled (st : State) : bool :=
  negb (metamaskConnected st) && negb (freighterConnected st)
  && negb (String.eqb (fromAmount st) "").

Definition head_account (accounts : list string) : option string :=
  match accounts with
  | [] => None
  | a :: _ => Some a
  end.

(** One event handled to completion: the state the next render sees and
    the log. *)
Definition step (w : World) (st : State) (ev : Event) (log : list Effect)
  : State * list Effect :=
  match ev with
  | SelectPair v =>
      if String.eqb v (tokensPair st) then (st, log)
      else (resetWallets (setTokensPair v st), log)
  | FreighterSelected None _ => (st, log)
  | FreighterSelected (Some address) account =>
      let st' := setStellarAddress (Some address) (setFreighterConnected true st) in
      match account with
      | None => (st', log)
      | Some native =>
          (setXlmBalance (Some (Num.parseFloat (or_else native "0"))) st', log)
      end
  | ClickDisconnectFreighter =>
      if freighterConnected st then (setFreighterConnected false st, log)
      else (st, log)
  | ClickConnectMetamask accounts balance =>
      if metamaskConnected st then (st, log)
      else if negb (ethereum w) then (st, (log ++ [Alert "MetaMask not installed"])%list)
      else
        match accounts with
        | None => (st, (log ++ [ConsoleError "Error connecting to MetaMask:"])%list)
        | Some [] => (st, log)
        | Some (a :: _) =>
            (updateEvmAccount (Some a) balance st,
             match balance with
             | Some _ => log
             | None =>
                 if falsy (Some a) then log
                 else (log ++ [ConsoleError "Error connecting to MetaMask:"])%list
             end)
        end
  | AccountsChanged accounts balance =>
      if ethereum w then (updateEvmAccount (head_account accounts) balance st, log)
      else (st, log)
  | ClickSwitchAccount granted =>
      if metamaskConnected st && ethereum w && negb granted then
        (st, (log ++ [ConsoleError "Error requesting permissions:"])%list)
      else (st, log)
  | ChangeAmount v => (setFromAmount v st, log)
  | ClickMax => if maxRendered st then (handleUseMax st, log) else (st, log)
  | ClickSubmit =>
      if submitDisabled st then (st, log)
      else (st, snd (submitOrder w st log))
  | ChangeResolver v => (setResolverAddress v st, log)
  | ToggleAdvanced b => (setAdvancedOpen b st, log)
  end.

(** A session: the events in order, each with the world it meets. *)
Fixpoint run (evs : list (World * Event)) (st : State) (log : list Effect)
  : State * list Effect :=
  match evs with
  | [] => (st, log)
  | (w, ev) :: evs' =>
      let '(st', log') := step w st ev log in
      run evs' st' log'
  end.

End Swap.

(** ** Exact decimal quantities

    What the amounts are measured against: the rational a decimal numeral
    denotes, with no rounding. *)

Module Exact.

Definition pow10 (x : Z) : Q :=
  if (0 <=? x)%Z then inject_Z (10 ^ x) else Qmake 1 (Z.to_pos (10 ^ (- x))).

(** The value of [s] when the whole of [s] is a decimal numeral: an
    optional sign, digits, an optional fraction and an optional
    exponent. *)
Definition numeral (s : string) : option Q :=
  let '(neg, s0) :=
    match s with
    | String "-" r => (true, r)
    | String "+" r => (false, r)
    | _ => (false, s)
    end in
  let '(iv, ni, s1) := Num.read_digits s0 0 0 in
  if (ni =? 0)%Z then None
  else
    match Decode.parse_fraction s1 iv with
    | Some (mv, nf, s2) =>
        match Decode.parse_exponent s2 with
        | Some (x, "") =>
            Some (inject_Z (if neg then - mv else mv) * pow10 (x - nf))%Q
        | _ => None
        end
    | None => None
    end.

(** [s] is a decimal numeral of a positive number. *)
Definition positive_decimal (s : string) : bool :=
  match numeral s with
  | Some q => (0 <? Qnum q)%Z
  | None => false
  end.

(** [take] denotes exactly 0.95 times what [make] denotes. *)
Definition is_95_percent (make take : string) : bool :=
  match numeral make, numeral take with
  | Some a, Some b => Qeq_bool b (a * (95 # 100))
  | _, _ => false
  end.

End Exact.

(** The orders [submitOrder] sends: the bodies of the requests to the
    order endpoint it leaves in the log, started from an empty log. *)
Definition submits (w : World) (st : Swap.State) (o : Order) : Prop :=
  In (Http {| base := apiUrl w; path := "order"; method := "POST";
              body := Order_value o |})
     (snd (Swap.submitOrder w st [])).

(** ** Worlds, states and orders the properties are checked on *)

(** The pair XLMETH with a Stellar balance of 12.5 at hand. *)
Definition max_state : Swap.State :=
  Swap.setXlmBalance (Some (Num.parseFloat "12.5000000"))
    (Swap.setTokensPair "XLMETH" Swap.initial).

(** The requests [postOrder] and [postSecret] make. *)
Definition order_request (w : World) (o : Order) : Request :=
  {| base := apiUrl w; path := "order"; method := "POST"; body := Order_value o |}.

Definition secret_request (w : World) (secret : string) : Request :=
  {| base := apiUrl w; path := "secret"; method := "POST";
     body := JSON.JObj [("secret", JSON.JStr secret)] |}.

(** A world with both wallets at hand and a relayer that accepts. *)
Definition accepting : World :=
  {| apiUrl := "http://localhost:8000/";
     random36 := "0.4fzyo82mvyr";
     ethereum := true;
     evmSignMessage := fun msg => Some ("0xsigned:" ++ msg);
     kitSignMessage := fun msg => Some ("signed:" ++ msg, Some "GSIGNER");
     restRequest := fun _ => Some {| data := JSON.JBool true |} |}.

(** The order of scenario A. *)
Definition scenario_a : Order :=
  {| order_data :=
       {| salt := "abc"; src_chain := Num.of_Z 1; dst_chain := Num.of_Z 2;
          make_amount := "100"; take_amount := "95" |};
     signature := {| signed_message := "sig"; signer_address := "GMAKER" |} |}.

(** What [submitOrder] does once the signature is at hand: the request,
    then an alert unless the relayer's answer is truthy. *)
Definition after_post (w : World) (o : Order) : list Effect :=
  match restRequest w (order_request w o) with
  | Some response =>
      if JSON.truthy (data response) then []
      else [Alert "Failed to submit order"]
  | None =>
      [ConsoleError "Error submitting order:"; Alert "Error submitting order"]
  end.

(** The claim on paper: the order carries a signature that the wallet of
    its source chain made over the encoding of its data (MetaMask for the
    EVM chain, 2; Freighter for Stellar, 1), under a signer address that is
    not empty. *)
Definition wallet_signed (w : World) (o : Order) : Prop :=
  signer_address (signature o) <> ""
  /\ ((src_chain (order_data o) = Num.of_Z 2
       /\ evmSignMessage w (encode_OrderData (order_data o))
          = Some (signed_message (signature o)))
      \/ (src_chain (order_data o) = Num.of_Z 1
          /\ exists reported,
               kitSignMessage w (encode_OrderData (order_data o))
               = Some (signed_message (signature o), reported))).

(** What the freshly mounted component sends on Submit. *)
Definition unsigned_order : Order :=
  {| order_data := Swap.orderData accepting Swap.initial;
     signature := {| signed_message := ""; signer_address := "" |} |}.

(** A maker with MetaMask connected who swaps 100 ETH. *)
Definition evm_state : Swap.State :=
  Swap.setFromAmount "100"
    (Swap.setEthBalance (Some (Num.parseFloat "1.5"))
       (Swap.setMetamaskConnected true
          (Swap.setEvmAddress (Some "0xMAKER")
             (Swap.setTokensPair "ETHXLM" Swap.initial)))).

Definition evm_order : Order :=
  {| order_data := Swap.orderData accepting evm_state;
     signature :=
       {| signed_message :=
            "0xsigned:" ++ encode_OrderData (Swap.orderData accepting evm_state);
          signer_address := "0xMAKER" |} |}.

Section ValueInduction.

Variable P : JSON.value -> Prop.
Hypothesis Hnull : P JSON.JNull.
Hypothesis Hbool : forall b, P (JSON.JBool b).
Hypothesis Hnum : forall x, P (JSON.JNum x).
Hypothesis Hstr : forall s, P (JSON.JStr s).
Hypothesis Harr : forall items, Forall P items -> P (JSON.JArr items).
Hypothesis Hobj :
  forall props, Forall (fun kv => P (snd kv)) props -> P (JSON.JObj props).

Fixpoint value_induction (v : JSON.value) : P v :=
  match v with
  | JSON.JNull => Hnull
  | JSON.JBool b => Hbool b
  | JSON.JNum x => Hnum x
  | JSON.JStr s => Hstr s
  | JSON.JArr items =>
      Harr items
        ((fix all l : Forall P l :=
            match l with
            | [] => Forall_nil P
            | x :: l' => Forall_cons x (value_induction x) (all l')
            end) items)
  | JSON.JObj props =>
      Hobj props
        ((fix all l : Forall (fun kv => P (snd kv)) l :=
            match l with
            | [] => Forall_nil _
            | kv :: l' => Forall_cons kv (value_induction (snd kv)) (all l')
            end) props)
  end.

End ValueInduction.

Module Readable.

Import JSON Decode.

(** What may come after a value inside a text. *)
Definition follows (rest : string) : bool :=
  match rest with
  | "" => true
  | String c _ => (Str.code c =? 44) || (Str.code c =? 125) || (Str.code c =? 93)
  end.

(** A number that is read back from its text. *)
Definition number_ok (x : Num.number) : Prop :=
  forall f rest, follows rest = true ->
    parse_value (S f) (stringify (JNum x) ++ rest) = Some (JNum x, rest).

(** Values made of objects, strings, booleans, [null] and numbers that
    are read back. *)
Fixpoint readable (v : value) : Prop :=
  match v with
  | JNum x => number_ok x
  | JArr _ => False
  | JObj props =>
      (fix all l :=
         match l with
         | [] => True
         | (_, x) :: l' => readable x /\ all l'
         end) props
  | _ => True
  end.

Definition readable_props : list (string * value) -> Prop :=
  fix all l :=
    match l with
    | [] => True
    | (_, x) :: l' => readable x /\ all l'
    end.

Fixpoint size (v : value) : nat :=
  match v with
  | JObj props =>
      S ((fix go l :=
            match l with
            | [] => O
            | (_, x) :: l' => S (Nat.max (size x) (go l'))
            end) props)
  | _ => 1
  end.

Definition size_props : list (string * value) -> nat :=
  fix go l :=
    match l with
    | [] => O
    | (_, x) :: l' => S (Nat.max (size x) (go l'))
    end.

End Readable.

(** The chain identifiers the client uses. *)
Definition supported_chain (x : Num.number) : Prop :=
  x = Num.of_Z 1 \/ x = Num.of_Z 2.

(** A value of the structure type whose source chain is no number. *)
Definition nan_order_data : OrderData :=
  {| salt := "abc"; src_chain := Num.NaN; dst_chain := Num.of_Z 2;
     make_amount := "100"; take_amount := "95" |}.

Definition nan_order : Order :=
  {| order_data := nan_order_data;
     signature := {| signed_message := "sig"; signer_address := "GMAKER" |} |}.

(** The requests of a log, and those to the secret endpoint. *)
Definition requests (log : list Effect) : list Request :=
  flat_map (fun e => match e with Http r => [r] | _ => [] end) log.

Definition secret_requests (log : list Effect) : list Request :=
  filter (fun r => String.eqb (path r) "secret") (requests log).

(** A maker swaps 100 XLM: pair, Freighter, amount, Submit. *)
Definition xlm_session : list (World * Swap.Event) :=
  [(accepting, Swap.SelectPair "XLMETH");
   (accepting, Swap.FreighterSelected (Some "GMAKER") (Some (Some "250.5000000")));
   (accepting, Swap.ChangeAmount "100");
   (accepting, Swap.ClickSubmit)].

Definition xlm_session_order : Order :=
  {| order_data :=
       {| salt := "4fzyo82mvyr"; src_chain := Num.of_Z 1; dst_chain := Num.of_Z 2;
          make_amount := "100"; take_amount := "95" |};
     signature :=
       {| signed_message :=
            "signed:" ++
            encode_OrderData
              {| salt := "4fzyo82mvyr"; src_chain := Num.of_Z 1;
                 dst_chain := Num.of_Z 2;
                 make_amount := "100"; take_amount := "95" |};
          signer_address := "GSIGNER" |} |}.

(** The freshly mounted component with [v] typed as the amount. *)
Definition amount_state (v : string) : Swap.State :=
  Swap.setFromAmount v Swap.initial.

(** What [submitOrder] puts in [take_amount] for the amount [v]. *)
Definition take_of (v : string) : string :=
  Num.toString (Num.mul (Num.parseFloat v) Swap.rate).








(** A number that is written as a JSON number whose text reads back as the
    same number. *)
Definition reads_back (x : Num.number) : Prop :=
  Num.isFinite x = true
  /\ Decode.parse_number (Num.toString x) = Some (x, "").

(** [Decode.parse_number] after its sign. *)
Definition number_body (neg : bool) (s0 : string) : option (Num.number * string) :=
  let '(iv, ni, s1) := Num.read_digits s0 0 0 in
  if (ni =? 0) || ((1 <? ni) && String.prefix "0" s0) then None
  else
    match Decode.parse_fraction s1 iv with
    | None => None
    | Some (mv, nf, s2) =>
        match Decode.parse_exponent s2 with
        | None => None
        | Some (x, s3) => Some (Num.of_decimal neg mv (x - nf), s3)
        end
    end.

Definition nondigit_start (rest : string) : bool :=
  match rest with
  | "" => true
  | String c _ => negb (Str.is_digit c)
  end.

(** An order whose chain identifiers are numbers no chain of the client
    has. *)
Definition wide_order : Order :=
  {| order_data :=
       {| salt := "abc"; src_chain := Num.parseFloat "1e21";
          dst_chain := Num.parseFloat "0.1";
          make_amount := "100"; take_amount := "95" |};
     signature := {| signed_message := "sig"; signer_address := "GMAKER" |} |}.

(** The claim on paper: the request to the secret endpoint comes with an
    order context, that is, something beside the secret says which order
    it is for: a path that goes on after the endpoint's name, or a
    property of the body other than [secret]. *)
Definition order_context (r : Request) : Prop :=
  (exists more, more <> "" /\ path r = "secret" ++ more)
  \/ (exists props key,
        body r = JSON.JObj props /\ key <> "secret"
        /\ JSON.get key props <> None).

(** * Properties *)

(** ** Chain identifiers *)

Lemma chain_ids : Num.of_Z 1 = S754_finite false 4503599627370496 (-52)
  /\ Num.of_Z 2 = S754_finite false 4503599627370496 (-51).
Proof. split; vm_compute; reflexivity. Qed.

(** C3: whatever pair is selected, the order [submitOrder] builds has two
    different chain identifiers, one of them 1 and the other 2; they are
    different as JavaScript numbers too. *)
Theorem orderData_chains_distinct (w : World) (st : Swap.State) :
  let od := Swap.orderData w st in
  (src_chain od = Num.of_Z 1 /\ dst_chain od = Num.of_Z 2
   \/ src_chain od = Num.of_Z 2 /\ dst_chain od = Num.of_Z 1)
  /\ src_chain od <> dst_chain od
  /\ Num.eqb (src_chain od) (dst_chain od) = false.
Proof.
  cbv zeta. unfold Swap.orderData. cbn [src_chain dst_chain].
  destruct (String.eqb (Swap.tokensPair st) "XLMETH").
  - split; [left; split; reflexivity|].
    split; [vm_compute; discriminate | vm_compute; reflexivity].
  - split; [right; split; reflexivity|].
    split; [vm_compute; discriminate | vm_compute; reflexivity].
Qed.

(** ** The Max handler *)

(** C10: [handleUseMax] touches [fromAmount] only. It sets it to the
    string form of [xlmBalance] for the pair XLMETH with a balance at hand,
    to the string form of [ethBalance] for the pair ETHXLM with a balance
    at hand, and leaves the whole state as it is otherwise. *)
Theorem handleUseMax_frame (st : Swap.State) :
  let st' := Swap.handleUseMax st in
  (Swap.tokensPair st' = Swap.tokensPair st
   /\ Swap.freighterConnected st' = Swap.freighterConnected st
   /\ Swap.metamaskConnected st' = Swap.metamaskConnected st
   /\ Swap.stellarAddress st' = Swap.stellarAddress st
   /\ Swap.evmAddress st' = Swap.evmAddress st
   /\ Swap.xlmBalance st' = Swap.xlmBalance st
   /\ Swap.ethBalance st' = Swap.ethBalance st
   /\ Swap.advancedOpen st' = Swap.advancedOpen st
   /\ Swap.resolverAddress st' = Swap.resolverAddress st)
  /\ (forall x, Swap.tokensPair st = "XLMETH" -> Swap.xlmBalance st = Some x ->
       Swap.fromAmount st' = Num.toString x)
  /\ (forall e, Swap.tokensPair st = "ETHXLM" -> Swap.ethBalance st = Some e ->
       Swap.fromAmount st' = Num.toString e)
  /\ ((Swap.tokensPair st <> "XLMETH" \/ Swap.xlmBalance st = None) ->
      (Swap.tokensPair st <> "ETHXLM" \/ Swap.ethBalance st = None) ->
      st' = st).
Proof.
  cbv zeta. unfold Swap.handleUseMax.
  destruct st as [tp fc mc sa ea xb eb fa ao ra]; cbn.
  destruct (String.eqb_spec tp "XLMETH") as [Hx|Hx];
    destruct (String.eqb_spec tp "ETHXLM") as [He|He];
    destruct xb as [x|], eb as [e|]; cbn;
    repeat match goal with |- _ /\ _ => split end;
    try reflexivity; intros; subst;
    try congruence; try discriminate;
    repeat match goal with
           | H : _ \/ _ |- _ => destruct H
           end; congruence.
Qed.

Lemma handleUseMax_frame_witness :
  Swap.tokensPair max_state = "XLMETH"
  /\ Swap.xlmBalance max_state = Some (Num.parseFloat "12.5000000")
  /\ Swap.fromAmount (Swap.handleUseMax max_state) = "12.5".
Proof.
  split; [reflexivity|]. split; [reflexivity|].
  rewrite (proj1 (proj2 (handleUseMax_frame max_state))
             (Num.parseFloat "12.5000000") eq_refl eq_refl).
  vm_compute. reflexivity.
Defined.

(** ** The relayer API *)

Lemma get_Order_value (o : Order) :
  Decode.Order_of_value (Order_value o) = Some o.
Proof. destruct o as [[s sc dc ma ta] [sm sa]]. reflexivity. Qed.

Lemma Order_value_inj (o o' : Order) : Order_value o = Order_value o' -> o = o'.
Proof.
  intros H. apply (f_equal Decode.Order_of_value) in H.
  rewrite !get_Order_value in H. congruence.
Qed.

(** C5: [postOrder] makes one request, a POST to the endpoint [order]
    whose body is the order as given (the order can be read back from it
    field by field), and gives back the data of the response: a boolean
    answer of the relayer comes back as that boolean. A failed request is a
    rejection. *)
Theorem postOrder_sends_order (w : World) (order : Order) (log : list Effect) :
  let r := order_request w order in
  snd (Api.postOrder w order log) = (log ++ [Http r])%list
  /\ path r = "order" /\ method r = "POST"
  /\ Decode.Order_of_value (body r) = Some order
  /\ fst (Api.postOrder w order log) =
       match restRequest w r with
       | Some response => Fulfilled (data response)
       | None => Rejected
       end
  /\ forall b : bool,
       restRequest w r = Some {| data := JSON.JBool b |} ->
       fst (Api.postOrder w order log) = Fulfilled (JSON.JBool b)
       /\ JSON.truthy (JSON.JBool b) = b.
Proof.
  cbv zeta.
  unfold Api.postOrder, Api.getRestClient, Api.request, bind, ret, emit, await.
  fold (order_request w order).
  destruct (restRequest w (order_request w order)) as [d|] eqn:E; cbn;
    (split; [reflexivity|]); (split; [reflexivity|]); (split; [reflexivity|]);
    (split; [apply get_Order_value|]); (split; [reflexivity|]).
  - intros b Hb. injection Hb as ->. split; reflexivity.
  - intros b Hb. discriminate.
Qed.

Lemma postOrder_sends_order_witness :
  restRequest accepting (order_request accepting scenario_a)
  = Some {| data := JSON.JBool true |}
  /\ fst (Api.postOrder accepting scenario_a []) = Fulfilled (JSON.JBool true).
Proof.
  split; [reflexivity|].
  apply (proj2 (proj2 (proj2 (proj2 (proj2
           (postOrder_sends_order accepting scenario_a [])))))).
  reflexivity.
Defined.

(** C6, as stated, fails: the request [postSecret] makes for the secret
    [s3cr3t] is the same whichever order was posted before it; its path is
    the endpoint's name and its body has the one property [secret], so it
    comes with no order context. *)
Lemma secret_request_has_no_order_context :
  let r := secret_request accepting "s3cr3t" in
  snd (Api.postSecret accepting "s3cr3t"
         (snd (Api.postOrder accepting scenario_a [])))
  = [Http (order_request accepting scenario_a); Http r]
  /\ snd (Api.postSecret accepting "s3cr3t"
            (snd (Api.postOrder accepting evm_order [])))
     = [Http (order_request accepting evm_order); Http r]
  /\ r = {| base := "http://localhost:8000/"; path := "secret";
            method := "POST";
            body := JSON.JObj [("secret", JSON.JStr "s3cr3t")] |}
  /\ ~ order_context r.
Proof.
  cbv zeta. split; [reflexivity|]. split; [reflexivity|]. split; [reflexivity|].
  intros [[more [Hm E]]|[props [key [Hb [Hk Hg]]]]].
  - cbn in E. injection E as E. apply Hm. symmetry. exact E.
  - cbn in Hb. injection Hb as <-. cbn [JSON.get] in Hg.
    destruct (String.eqb_spec key "secret") as [E|E]; [exact (Hk E)|].
    apply Hg. reflexivity.
Qed.

(** C6, amended: [postSecret] makes one request, a POST to the endpoint
    [secret] whose body is the object with the single property [secret]
    holding the string as given, and gives back the data of the response.
    The request is made of the secret and the address of the API alone:
    its body has no other property and its path is the endpoint's name,
    so nothing in it says which order the secret is for. *)
Theorem postSecret_sends_secret (w : World) (secret : string) (log : list Effect) :
  let r := secret_request w secret in
  snd (Api.postSecret w secret log) = (log ++ [Http r])%list
  /\ path r = "secret" /\ method r = "POST"
  /\ body r = JSON.JObj [("secret", JSON.JStr secret)]
  /\ JSON.stringify (body r)
     = "{" ++ JSON.quote "secret" ++ ":" ++ JSON.quote secret ++ "}"
  /\ Decode.as_string
       (match body r with JSON.JObj props => JSON.get "secret" props | _ => None end)
     = Some secret
  /\ fst (Api.postSecret w secret log) =
       match restRequest w r with
       | Some response => Fulfilled (data response)
       | None => Rejected
       end
  /\ (forall key, key <> "secret" ->
      match body r with JSON.JObj props => JSON.get key props | _ => None end
      = None)
  /\ ~ order_context r.
Proof.
  cbv zeta.
  assert (Hkey : forall key, key <> "secret" ->
            JSON.get key [("secret", JSON.JStr secret)] = None).
  { intros key Hk. cbn [JSON.get].
    destruct (String.eqb_spec key "secret") as [E|E]; [contradiction|reflexivity]. }
  assert (Hctx : ~ order_context (secret_request w secret)).
  { intros [[more [Hm E]]|[props [key [Hb [Hk Hg]]]]].
    - cbn in E. injection E as E. apply Hm. symmetry. exact E.
    - cbn in Hb. injection Hb as <-. apply Hg, Hkey, Hk. }
  unfold Api.postSecret, Api.getRestClient, Api.request, bind, ret, emit, await.
  fold (secret_request w secret).
  destruct (restRequest w (secret_request w secret)) as [d|] eqn:E;
    cbn [fst snd path method body secret_request];
    (split; [reflexivity|]); (split; [reflexivity|]); (split; [reflexivity|]);
    (split; [reflexivity|]); (split; [reflexivity|]); (split; [reflexivity|]);
    (split; [reflexivity|]); (split; [exact Hkey | exact Hctx]).
Qed.

(** ** Submitting an order *)

Lemma after_post_no_request (w : World) (o : Order) (r : Request) :
  ~ In (Http r) (after_post w o).
Proof.
  unfold after_post.
  destruct (restRequest w (order_request w o)) as [d|];
    [destruct (JSON.truthy (data d))|]; cbn; intuition discriminate.
Qed.

Lemma submitOrder_signed (w : World) (st : Swap.State) (log log1 : list Effect)
    (sg : Signature) :
  Swap.signOrder w st (Swap.orderData w st) log = (Fulfilled (Some sg), log1) ->
  Swap.submitOrder w st log =
    (Fulfilled tt,
     (log1 ++ Http (order_request w {| order_data := Swap.orderData w st;
                                       signature := sg |})
           :: after_post w {| order_data := Swap.orderData w st;
                              signature := sg |})%list).
Proof.
  intros Hs. unfold Swap.submitOrder, bind at 1. rewrite Hs.
  unfold try_catch, Api.postOrder, Api.getRestClient, Api.request, bind, ret,
    emit, await, alert, console_error, emit, after_post.
  fold (order_request w {| order_data := Swap.orderData w st; signature := sg |}).
  destruct (restRequest w _) as [d|]; cbn.
  - destruct (JSON.truthy (data d)); cbn; rewrite <- ?app_assoc; reflexivity.
  - rewrite <- !app_assoc. reflexivity.
Qed.

Lemma submitOrder_unsigned (w : World) (st : Swap.State) (log log1 : list Effect)
    (out : Outcome unit) :
  Swap.signOrder w st (Swap.orderData w st) log
    = (match out with Fulfilled _ => Fulfilled None | Rejected => Rejected end, log1) ->
  Swap.submitOrder w st log = (out, log1).
Proof.
  intros Hs. unfold Swap.submitOrder, bind at 1. rewrite Hs.
  destruct out as [[]|]; reflexivity.
Qed.

(** C9: for a pair that is neither ETHXLM nor XLMETH, [submitOrder] is not
    rejected and does not stop before the request: it posts the order with
    the signature whose [signed_message] and [signer_address] are both the
    empty string, and makes no other request. *)
Theorem submitOrder_other_pair_unsigned (w : World) (st : Swap.State)
    (log : list Effect) :
  Swap.tokensPair st <> "ETHXLM" ->
  Swap.tokensPair st <> "XLMETH" ->
  let o := {| order_data := Swap.orderData w st;
              signature := {| signed_message := ""; signer_address := "" |} |} in
  Swap.submitOrder w st log
    = (Fulfilled tt, (log ++ Http (order_request w o) :: after_post w o)%list)
  /\ submits w st o
  /\ forall r, In (Http r) (after_post w o) -> False.
Proof.
  intros He Hx o.
  assert (Hs : forall l, Swap.signOrder w st (Swap.orderData w st) l
                 = (Fulfilled (Some (signature o)), l)).
  { intros l. unfold Swap.signOrder.
    apply String.eqb_neq in He, Hx. rewrite He, Hx. reflexivity. }
  split; [apply submitOrder_signed, Hs|].
  split.
  - unfold submits. rewrite (submitOrder_signed w st [] [] _ (Hs [])).
    cbn. left. reflexivity.
  - intros r. apply after_post_no_request.
Qed.

Lemma submitOrder_other_pair_unsigned_witness :
  Swap.tokensPair Swap.initial <> "ETHXLM"
  /\ Swap.tokensPair Swap.initial <> "XLMETH"
  /\ submits accepting Swap.initial
       {| order_data := Swap.orderData accepting Swap.initial;
          signature := {| signed_message := ""; signer_address := "" |} |}.
Proof.
  split; [discriminate|]. split; [discriminate|].
  apply (submitOrder_other_pair_unsigned accepting Swap.initial []);
    discriminate.
Defined.

Lemma signOrder_log (w : World) (st : Swap.State) (od : OrderData)
    (log log1 : list Effect) (sg : Signature) :
  Swap.signOrder w st od log = (Fulfilled (Some sg), log1) -> log1 = log.
Proof.
  unfold Swap.signOrder, bind, ret, await, alert, emit.
  destruct (String.eqb (Swap.tokensPair st) "ETHXLM").
  - destruct (ethereum w); cbn; [|discriminate].
    destruct (evmSignMessage w _); congruence.
  - destruct (String.eqb (Swap.tokensPair st) "XLMETH"); [|congruence].
    destruct (negb (Swap.freighterConnected st) || Swap.falsy (Swap.stellarAddress st));
      cbn; [discriminate|].
    destruct (kitSignMessage w _); congruence.
Qed.

(** An order that [submitOrder] sends is the order data it built together
    with the signature its signing step gave. *)
Lemma submits_inv (w : World) (st : Swap.State) (o : Order) :
  submits w st o ->
  order_data o = Swap.orderData w st
  /\ Swap.signOrder w st (Swap.orderData w st) [] = (Fulfilled (Some (signature o)), []).
Proof.
  unfold submits. intros H.
  destruct (Swap.signOrder w st (Swap.orderData w st) []) as [[[sg|]|] log1] eqn:Hs.
  - pose proof (signOrder_log _ _ _ _ _ _ Hs) as ->.
    rewrite (submitOrder_signed w st [] [] sg Hs) in H. cbn in H.
    destruct H as [H|H]; [|exfalso; exact (after_post_no_request _ _ _ H)].
    apply (f_equal (fun e => match e with Http r => body r | _ => JSON.JNull end))
      in H.
    cbn [body order_request] in H. apply Order_value_inj in H. subst o.
    split; reflexivity.
  - rewrite (submitOrder_unsigned w st [] log1 (Fulfilled tt) Hs) in H. cbn in H.
    exfalso. revert Hs H. unfold Swap.signOrder, bind, ret, await, alert, emit.
    destruct (String.eqb (Swap.tokensPair st) "ETHXLM").
    + destruct (ethereum w); cbn.
      * destruct (evmSignMessage w _); discriminate.
      * intros [= <-]. cbn. intuition discriminate.
    + destruct (String.eqb (Swap.tokensPair st) "XLMETH"); [|discriminate].
      destruct (negb (Swap.freighterConnected st) || Swap.falsy (Swap.stellarAddress st));
        cbn.
      * intros [= <-]. cbn. intuition discriminate.
      * destruct (kitSignMessage w _); discriminate.
  - rewrite (submitOrder_unsigned w st [] log1 Rejected Hs) in H. cbn in H.
    exfalso. revert Hs H. unfold Swap.signOrder, bind, ret, await, alert, emit.
    destruct (String.eqb (Swap.tokensPair st) "ETHXLM").
    + destruct (ethereum w); cbn; [|discriminate].
      destruct (evmSignMessage w _); [discriminate|].
      intros [= <-]. cbn. tauto.
    + destruct (String.eqb (Swap.tokensPair st) "XLMETH"); [|discriminate].
      destruct (negb (Swap.freighterConnected st) || Swap.falsy (Swap.stellarAddress st));
        cbn; [discriminate|].
      destruct (kitSignMessage w _); [discriminate|].
      intros [= <-]. cbn. tauto.
Qed.

Lemma or_else_truthy (a : option string) (b : string) :
  Swap.falsy a = false -> Some (Swap.or_else a b) = a.
Proof.
  unfold Swap.or_else. intros H. rewrite H. destruct a; [reflexivity|discriminate].
Qed.

Lemma or_else_falsy (a : option string) (b : string) :
  Swap.falsy a = true -> Swap.or_else a b = b.
Proof. unfold Swap.or_else. intros H. rewrite H. reflexivity. Qed.

Lemma or_else_nonempty (a : option string) (b : string) :
  b <> "" -> Swap.or_else a b <> "".
Proof.
  intros Hb. destruct (Swap.falsy a) eqn:E.
  - rewrite (or_else_falsy _ _ E). exact Hb.
  - intros H. pose proof (or_else_truthy a b E) as H1. rewrite H in H1.
    rewrite <- H1 in E. discriminate.
Qed.

(** C1, as stated, fails: with no pair selected the freshly mounted
    component sends an order whose signature is empty. *)
Lemma unsigned_order_is_submitted :
  submits accepting Swap.initial unsigned_order
  /\ ~ wallet_signed accepting unsigned_order.
Proof.
  split.
  - unfold submits. vm_compute. left. reflexivity.
  - intros [H _]. apply H. reflexivity.
Qed.

(** C1, amended: an order [submitOrder] sends for the pair ETHXLM or XLMETH
    carries what the wallet of the source chain answered to [signMessage]
    on [JSON.stringify(orderData)]: MetaMask for ETHXLM, whose source chain
    is 2, and Freighter for XLMETH, whose source chain is 1. For XLMETH
    the signer address is not empty: it is the address Freighter reported
    or else the connected [stellarAddress]. For ETHXLM it is the
    component's [evmAddress] when one is set. *)
Theorem submitted_order_signature (w : World) (st : Swap.State) (o : Order) :
  submits w st o ->
  order_data o = Swap.orderData w st
  /\ (Swap.tokensPair st = "ETHXLM" ->
      src_chain (order_data o) = Num.of_Z 2
      /\ ethereum w = true
      /\ evmSignMessage w (encode_OrderData (order_data o))
         = Some (signed_message (signature o))
      /\ forall a, Swap.evmAddress st = Some a -> a <> "" ->
                   signer_address (signature o) = a)
  /\ (Swap.tokensPair st = "XLMETH" ->
      src_chain (order_data o) = Num.of_Z 1
      /\ Swap.freighterConnected st = true
      /\ exists reported,
           kitSignMessage w (encode_OrderData (order_data o))
           = Some (signed_message (signature o), reported)
           /\ signer_address (signature o) <> ""
           /\ (Swap.falsy reported = false ->
               reported = Some (signer_address (signature o)))
           /\ (Swap.falsy reported = true ->
               Swap.stellarAddress st = Some (signer_address (signature o)))).
Proof.
  intros H. apply submits_inv in H. destruct H as [Hod Hs].
  split; [exact Hod|]. rewrite Hod. unfold encode_OrderData.
  assert (Hsrc : src_chain (Swap.orderData w st)
                 = if String.eqb (Swap.tokensPair st) "XLMETH"
                   then Num.of_Z 1 else Num.of_Z 2) by reflexivity.
  unfold Swap.signOrder, bind, ret, await, alert, emit in Hs.
  remember (JSON.stringify (OrderData_value (Swap.orderData w st))) as msg eqn:E.
  clear E.
  split; intros Hp; rewrite Hsrc, Hp; rewrite Hp in Hs.
  - change (String.eqb "ETHXLM" "XLMETH") with false.
    change (String.eqb "ETHXLM" "ETHXLM") with true in Hs. cbv iota in Hs.
    destruct (ethereum w); cbn in Hs; [|discriminate].
    destruct (evmSignMessage w msg) as [sig|]; [|discriminate].
    injection Hs as Hsg. rewrite <- Hsg. cbn.
    split; [reflexivity|]. split; [reflexivity|]. split; [reflexivity|].
    intros a Ha Hne. rewrite Ha. unfold Swap.or_else, Swap.falsy.
    destruct (String.eqb_spec a ""); [contradiction|reflexivity].
  - change (String.eqb "XLMETH" "XLMETH") with true.
    change (String.eqb "XLMETH" "XLMETH") with true in Hs.
    change (String.eqb "XLMETH" "ETHXLM") with false in Hs. cbv iota in Hs.
    destruct (Swap.freighterConnected st); cbn in Hs; [|discriminate].
    destruct (Swap.falsy (Swap.stellarAddress st)) eqn:Hf; [discriminate|].
    destruct (kitSignMessage w msg) as [[sig reported]|]; [|discriminate].
    injection Hs as Hsg. rewrite <- Hsg. cbn.
    split; [reflexivity|]. split; [reflexivity|].
    exists reported. split; [reflexivity|].
    pose proof (or_else_truthy (Swap.stellarAddress st) "" Hf) as Hst.
    assert (Hne : Swap.or_else (Swap.stellarAddress st) "" <> "").
    { intros E. rewrite E in Hst. rewrite <- Hst in Hf. discriminate. }
    split; [apply or_else_nonempty, Hne|].
    split; intros Hr.
    + symmetry. apply or_else_truthy, Hr.
    + rewrite (or_else_falsy _ _ Hr). symmetry. exact Hst.
Qed.

Lemma submitted_order_signature_witness :
  submits accepting evm_state evm_order
  /\ order_data evm_order = Swap.orderData accepting evm_state.
Proof.
  assert (H : submits accepting evm_state evm_order).
  { unfold submits. vm_compute. left. reflexivity. }
  split; [exact H|].
  exact (proj1 (submitted_order_signature accepting evm_state evm_order H)).
Defined.

(** ** Encoding and decoding *)

Lemma append_assoc (a b c : string) : (a ++ b) ++ c = a ++ (b ++ c).
Proof. induction a as [|x a IH]; cbn; [reflexivity | now rewrite IH]. Qed.

Lemma append_nil_r (a : string) : a ++ "" = a.
Proof. induction a as [|x a IH]; cbn; [reflexivity | now rewrite IH]. Qed.

Lemma prefix_length (p s : string) :
  String.prefix p s = true -> (String.length p <= String.length s)%nat.
Proof.
  revert p. induction s as [|c s IH]; intros [|a p]; cbn; try lia; try discriminate.
  destruct (ascii_dec a c); [|discriminate].
  intros H. apply IH in H. lia.
Qed.

Module RoundTrip.

Import JSON Decode Readable.

Lemma parse_chars_escape_char (c : ascii) (t : string) :
  parse_chars (escape_char c ++ t) = cons_char c (parse_chars t).
Proof.
  destruct c as [[] [] [] [] [] [] [] []]; reflexivity.
Qed.

Lemma parse_chars_escape (s rest : string) :
  parse_chars (escape s ++ String dquote rest) = Some (s, rest).
Proof.
  induction s as [|c s IH]; [reflexivity|].
  cbn [escape]. rewrite append_assoc, parse_chars_escape_char, IH. reflexivity.
Qed.

Lemma quote_append (s rest : string) :
  quote s ++ rest = String dquote (escape s ++ String dquote rest).
Proof. unfold quote. cbn. rewrite append_assoc. reflexivity. Qed.

Lemma follows_cases (rest : string) :
  follows rest = true ->
  rest = "" \/ exists r, rest = String "," r \/ rest = String "}" r \/ rest = String "]" r.
Proof.
  destruct rest as [|c r]; [now left|]. right. exists r.
  revert H. destruct c as [[] [] [] [] [] [] [] []]; cbn; try discriminate; auto.
Qed.

Lemma parse_members_props (props : list (string * value)) :
  Forall (fun kv =>
            readable (snd kv) ->
            forall fuel rest, (size (snd kv) <= fuel)%nat -> follows rest = true ->
              parse_value fuel (stringify (snd kv) ++ rest) = Some (snd kv, rest))
         props ->
  props <> [] -> readable_props props ->
  forall fuel rest, (size_props props <= fuel)%nat ->
    parse_members fuel (stringify_props props ++ rest) = Some (props, rest).
Proof.
  induction 1 as [|[k x] l Hx _ IH]; [congruence|].
  intros _ [Rx Rl] fuel rest Hsz. cbn [snd] in Hx.
  destruct fuel as [|f]; [cbn in Hsz; lia|].
  assert (Hsx : (size x <= f)%nat) by (cbn in Hsz; lia).
  destruct l as [|kv l'].
  - cbn [stringify_props]. rewrite !append_assoc, quote_append.
    cbn [parse_members skip_ws is_ws]. cbn.
    rewrite parse_chars_escape. cbn.
    rewrite (Hx Rx f (String "}" rest) Hsx eq_refl). reflexivity.
  - assert (Hsl : (size_props (kv :: l') <= f)%nat) by (cbn in Hsz |- *; lia).
    specialize (IH ltac:(discriminate) Rl f rest Hsl).
    change (stringify_props ((k, x) :: kv :: l'))
      with (quote k ++ ":" ++ stringify x ++ "," ++ stringify_props (kv :: l')).
    remember (stringify_props (kv :: l')) as members eqn:E. clear E.
    rewrite !append_assoc, quote_append.
    cbn [parse_members skip_ws is_ws]. cbn.
    rewrite parse_chars_escape. cbn.
    rewrite (Hx Rx f (String "," (members ++ rest)) Hsx eq_refl).
    cbn. rewrite IH. reflexivity.
Qed.

Lemma stringify_obj (props : list (string * value)) :
  stringify (JObj props) = "{" ++ stringify_props props.
Proof. reflexivity. Qed.

Lemma stringify_props_head (props : list (string * value)) (rest : string) :
  props <> [] ->
  exists t, stringify_props props ++ rest = String dquote t.
Proof.
  destruct props as [|[k x] l]; [congruence|]. intros _.
  destruct l as [|kv l'].
  - cbn [stringify_props]. rewrite !append_assoc, quote_append. eauto.
  - change (stringify_props ((k, x) :: kv :: l'))
      with (quote k ++ ":" ++ stringify x ++ "," ++ stringify_props (kv :: l')).
    rewrite !append_assoc, quote_append. eauto.
Qed.

(** A readable value is read back from its text, whatever follows it. *)
Lemma parse_value_stringify (v : value) :
  readable v ->
  forall fuel rest, (size v <= fuel)%nat -> follows rest = true ->
    parse_value fuel (stringify v ++ rest) = Some (v, rest).
Proof.
  induction v as [|b|x|s|items _|props IH] using value_induction;
    intros R fuel rest Hsz Hf;
    (destruct fuel as [|f]; [cbn in Hsz; lia|]).
  - destruct rest; reflexivity.
  - destruct b, rest; reflexivity.
  - apply R, Hf.
  - cbn [stringify]. rewrite quote_append. cbn.
    rewrite parse_chars_escape. reflexivity.
  - destruct R.
  - rewrite stringify_obj.
    destruct props as [|kv l].
    + reflexivity.
    + assert (Hne : kv :: l <> []) by discriminate.
      change (S (size_props (kv :: l)) <= S f)%nat in Hsz.
      pose proof (parse_members_props (kv :: l) IH Hne R f rest
                    ltac:(lia)) as Hm.
      destruct (stringify_props_head (kv :: l) rest Hne) as [t Ht].
      rewrite append_assoc.
      remember (stringify_props (kv :: l) ++ rest) as text eqn:E. clear E.
      subst text. cbn [append parse_value skip_ws is_ws]. cbn.
      rewrite Hm. reflexivity.
Qed.

Lemma number_ok_1 : number_ok (Num.of_Z 1).
Proof.
  intros f rest Hf. apply follows_cases in Hf.
  destruct Hf as [->|[r [->|[->| ->]]]]; vm_compute; reflexivity.
Qed.

Lemma number_ok_2 : number_ok (Num.of_Z 2).
Proof.
  intros f rest Hf. apply follows_cases in Hf.
  destruct Hf as [->|[r [->|[->| ->]]]]; vm_compute; reflexivity.
Qed.

(** A readable value is what its whole text denotes. *)
Lemma parse_stringify (v : value) :
  readable v -> (size v <= S (String.length (stringify v)))%nat ->
  parse (stringify v) = Some v.
Proof.
  intros R Hsz. unfold parse.
  pose proof (parse_value_stringify v R _ "" Hsz eq_refl) as H.
  rewrite append_nil_r in H. rewrite H. reflexivity.
Qed.

End RoundTrip.

(** *** The text of a number *)

Module NumberText.

Import JSON Decode Readable.

Lemma follows_nondigit (rest : string) :
  follows rest = true -> nondigit_start rest = true.
Proof.
  intros H. apply RoundTrip.follows_cases in H.
  destruct H as [->|[r [->|[->| ->]]]]; reflexivity.
Qed.

Lemma read_digits_app (t rest : string) :
  nondigit_start rest = true ->
  forall acc n v c r,
    Num.read_digits t acc n = (v, c, r) ->
    Num.read_digits (t ++ rest) acc n = (v, c, r ++ rest).
Proof.
  intros Hr. induction t as [|a t IH]; intros acc n v c r H.
  - cbn in H. injection H as <- <- <-. cbn.
    destruct rest as [|ch rest']; [reflexivity|].
    cbn in Hr |- *. apply negb_true_iff in Hr. rewrite Hr. reflexivity.
  - cbn [Num.read_digits append] in *.
    destruct (Str.is_digit a).
    + apply IH, H.
    + injection H as <- <- <-. reflexivity.
Qed.

Lemma read_digits_count (t : string) :
  forall acc n v c r, Num.read_digits t acc n = (v, c, r) -> n <= c.
Proof.
  induction t as [|a t IH]; intros acc n v c r H; cbn in H.
  - injection H as _ <- _. lia.
  - destruct (Str.is_digit a).
    + apply IH in H. lia.
    + injection H as _ <- _. lia.
Qed.

Lemma parse_fraction_app (s rest : string) (iv mv nf : Z) (s2 : string) :
  follows rest = true ->
  parse_fraction s iv = Some (mv, nf, s2) ->
  parse_fraction (s ++ rest) iv = Some (mv, nf, s2 ++ rest).
Proof.
  intros Hf H. pose proof (follows_nondigit _ Hf) as Hn.
  destruct s as [|c s'].
  - cbn in H. injection H as <- <- <-. cbn.
    apply RoundTrip.follows_cases in Hf.
    destruct Hf as [->|[r [->|[->| ->]]]]; reflexivity.
  - cbn [append].
    destruct (Ascii.eqb_spec c ".") as [->|Hc].
    + cbn [parse_fraction] in *.
      destruct (Num.read_digits s' iv 0) as [[fv nf'] r] eqn:E.
      rewrite (read_digits_app _ _ Hn _ _ _ _ _ E).
      destruct (nf' =? 0); [discriminate|]. injection H as <- <- <-. reflexivity.
    + revert H.
      destruct c as [[] [] [] [] [] [] [] []]; try (exfalso; apply Hc; reflexivity);
        cbn; intros [= <- <- <-]; reflexivity.
Qed.

Lemma parse_exponent_app (s rest : string) (x : Z) (r : string) :
  follows rest = true ->
  parse_exponent s = Some (x, r) ->
  parse_exponent (s ++ rest) = Some (x, r ++ rest).
Proof.
  intros Hf H. pose proof (follows_nondigit _ Hf) as Hn.
  destruct s as [|c s1].
  - cbn in H. injection H as <- <-. cbn.
    apply RoundTrip.follows_cases in Hf.
    destruct Hf as [->|[r [->|[->| ->]]]]; reflexivity.
  - cbn [append parse_exponent] in *.
    destruct ((Str.code c =? 101) || (Str.code c =? 69)).
    + destruct s1 as [|d s2].
      * cbn in H. discriminate.
      * cbn [append].
        assert (Hsign : forall (neg : bool) (t : string),
          (let '(v, n, rest0) := Num.read_digits t 0 0 in
           if n =? 0 then None else Some (if neg then - v else v, rest0))
          = Some (x, r) ->
          (let '(v, n, rest0) := Num.read_digits (t ++ rest) 0 0 in
           if n =? 0 then None else Some (if neg then - v else v, rest0))
          = Some (x, r ++ rest)).
        { intros neg t. destruct (Num.read_digits t 0 0) as [[v n] r0] eqn:E.
          rewrite (read_digits_app _ _ Hn _ _ _ _ _ E).
          destruct (n =? 0); [discriminate|]. intros [= <- <-]. reflexivity. }
        destruct (Ascii.eqb_spec d "+") as [->|Hp]; [exact (Hsign false s2 H)|].
        destruct (Ascii.eqb_spec d "-") as [->|Hm]; [exact (Hsign true s2 H)|].
        revert H.
        destruct d as [[] [] [] [] [] [] [] []];
          try (exfalso; apply Hp; reflexivity);
          try (exfalso; apply Hm; reflexivity);
          (intros H; apply (Hsign false) in H; exact H).
    + injection H as <- <-. reflexivity.
Qed.

Lemma prefix_zero_app (s rest : string) :
  s <> "" -> String.prefix "0" (s ++ rest) = String.prefix "0" s.
Proof.
  destruct s as [|c s']; [congruence|]. intros _.
  cbn [append String.prefix].
  destruct (ascii_dec "0" c); [|reflexivity].
  destruct (s' ++ rest); destruct s'; reflexivity.
Qed.

Lemma number_body_app (neg : bool) (s0 rest : string) (x : Num.number) (r : string) :
  follows rest = true ->
  number_body neg s0 = Some (x, r) ->
  number_body neg (s0 ++ rest) = Some (x, r ++ rest).
Proof.
  intros Hf. pose proof (follows_nondigit _ Hf) as Hn.
  unfold number_body.
  destruct (Num.read_digits s0 0 0) as [[iv ni] s1] eqn:E.
  rewrite (read_digits_app _ _ Hn _ _ _ _ _ E).
  destruct (ni =? 0) eqn:Hni; [discriminate|]. cbn [orb].
  assert (Hs0 : s0 <> "").
  { intros ->. cbn in E. injection E as _ <- _. discriminate. }
  rewrite (prefix_zero_app _ _ Hs0).
  destruct ((1 <? ni) && String.prefix "0" s0); [discriminate|].
  destruct (parse_fraction s1 iv) as [[[mv nf] s2]|] eqn:Ef; [|discriminate].
  rewrite (parse_fraction_app _ _ _ _ _ _ Hf Ef).
  destruct (parse_exponent s2) as [[ex s3]|] eqn:Ee; [|discriminate].
  rewrite (parse_exponent_app _ _ _ _ Hf Ee).
  intros [= <- <-]. reflexivity.
Qed.

Lemma parse_number_body (c : ascii) (t : string) :
  parse_number (String c t)
  = if Ascii.eqb c "-" then number_body true t else number_body false (String c t).
Proof.
  destruct c as [[] [] [] [] [] [] [] []]; reflexivity.
Qed.

Lemma parse_number_app (t rest : string) (x : Num.number) :
  follows rest = true ->
  parse_number t = Some (x, "") ->
  parse_number (t ++ rest) = Some (x, rest).
Proof.
  intros Hf H. destruct t as [|c t]; [discriminate|].
  cbn [append]. rewrite parse_number_body in *.
  destruct (Ascii.eqb c "-").
  - exact (number_body_app _ _ _ _ _ Hf H).
  - exact (number_body_app false (String c t) rest x "" Hf H).
Qed.

Lemma number_body_head (neg : bool) (c : ascii) (t : string) (x : Num.number)
    (r : string) :
  number_body neg (String c t) = Some (x, r) -> Str.is_digit c = true.
Proof.
  unfold number_body. cbn [Num.read_digits].
  destruct (Str.is_digit c); [reflexivity|]. cbn. discriminate.
Qed.

Lemma parse_value_number (f : nat) (c : ascii) (t : string) :
  Ascii.eqb c "-" = true \/ Str.is_digit c = true ->
  parse_value (S f) (String c t)
  = match parse_number (String c t) with
    | Some (x, r) => Some (JNum x, r)
    | None => None
    end.
Proof.
  destruct c as [[] [] [] [] [] [] [] []]; intros [H|H];
    try discriminate H; reflexivity.
Qed.

Lemma reads_back_ok (x : Num.number) : reads_back x -> number_ok x.
Proof.
  intros [Hfin Hp] f rest Hf. cbn [stringify]. rewrite Hfin.
  pose proof (parse_number_app _ _ _ Hf Hp) as Happ.
  destruct (Num.toString x) as [|c t] eqn:E; [discriminate|].
  cbn [append] in *.
  rewrite parse_value_number.
  - rewrite Happ. reflexivity.
  - rewrite parse_number_body in Hp.
    destruct (Ascii.eqb c "-"); [left; reflexivity|].
    right. exact (number_body_head _ _ _ _ _ Hp).
Qed.

End NumberText.

Lemma supported_chain_reads_back (x : Num.number) :
  supported_chain x -> reads_back x.
Proof. intros [->| ->]; split; vm_compute; reflexivity. Qed.

Lemma supported_chain_ok (x : Num.number) :
  supported_chain x -> Readable.number_ok x.
Proof.
  intros [->| ->]; [apply RoundTrip.number_ok_1 | apply RoundTrip.number_ok_2].
Qed.

Lemma OrderData_of_value_value (od : OrderData) :
  Decode.OrderData_of_value (OrderData_value od) = Some od.
Proof. destruct od. reflexivity. Qed.

Lemma parse_OrderData_text (od : OrderData) :
  Readable.number_ok (src_chain od) -> Readable.number_ok (dst_chain od) ->
  Decode.parse (JSON.stringify (OrderData_value od)) = Some (OrderData_value od).
Proof.
  intros Hs Hd. apply RoundTrip.parse_stringify.
  - cbn [Readable.readable OrderData_value Order_value Signature_value].
    repeat match goal with |- _ /\ _ => split end;
      try exact I; assumption.
  - change (Readable.size (OrderData_value od)) with 7%nat.
    assert (H : String.prefix ("{" ++ JSON.quote "salt" ++ ":")
                  (JSON.stringify (OrderData_value od)) = true) by reflexivity.
    apply prefix_length in H.
    change (8 <= String.length (JSON.stringify (OrderData_value od)))%nat in H.
    lia.
Qed.

Lemma parse_Order_text (o : Order) :
  Readable.number_ok (src_chain (order_data o)) ->
  Readable.number_ok (dst_chain (order_data o)) ->
  Decode.parse (JSON.stringify (Order_value o)) = Some (Order_value o).
Proof.
  intros Hs Hd. apply RoundTrip.parse_stringify.
  - cbn [Readable.readable OrderData_value Order_value Signature_value].
    repeat match goal with |- _ /\ _ => split end;
      try exact I; assumption.
  - change (Readable.size (Order_value o)) with 9%nat.
    assert (H : String.prefix ("{" ++ JSON.quote "order_data" ++ ":")
                  (JSON.stringify (Order_value o)) = true) by reflexivity.
    apply prefix_length in H.
    change (14 <= String.length (JSON.stringify (Order_value o)))%nat in H.
    lia.
Qed.

Lemma parse_OrderData_value (od : OrderData) :
  supported_chain (src_chain od) -> supported_chain (dst_chain od) ->
  Decode.parse (JSON.stringify (OrderData_value od)) = Some (OrderData_value od).
Proof.
  intros Hs Hd. apply parse_OrderData_text; apply supported_chain_ok; assumption.
Qed.

Lemma parse_Order_value (o : Order) :
  supported_chain (src_chain (order_data o)) ->
  supported_chain (dst_chain (order_data o)) ->
  Decode.parse (JSON.stringify (Order_value o)) = Some (Order_value o).
Proof.
  intros Hs Hd. apply parse_Order_text; apply supported_chain_ok; assumption.
Qed.

Lemma orderData_supported (w : World) (st : Swap.State) :
  supported_chain (src_chain (Swap.orderData w st))
  /\ supported_chain (dst_chain (Swap.orderData w st)).
Proof.
  unfold Swap.orderData, supported_chain. cbn [src_chain dst_chain].
  destruct (String.eqb (Swap.tokensPair st) "XLMETH"); auto.
Qed.

(** Numbers beside the chain identifiers of the client that are read
    back: 3, 137, 0.1 and 1e21. *)
Lemma other_numbers_read_back :
  reads_back (Num.of_Z 3) /\ reads_back (Num.of_Z 137)
  /\ reads_back (Num.parseFloat "0.1") /\ reads_back (Num.parseFloat "1e21").
Proof. repeat split; vm_compute; reflexivity. Qed.

(** The numbers outside [reads_back]: one that is not finite is written
    as [null], from which no number is read. No order of the client has
    such a chain identifier. *)
Lemma nan_chain_is_not_read_back :
  ~ reads_back Num.NaN
  /\ decode_OrderData (encode_OrderData nan_order_data) <> Some nan_order_data
  /\ decode_Order (encode_Order nan_order) <> Some nan_order.
Proof.
  split; [intros [H _]; discriminate H|]. split; vm_compute; discriminate.
Qed.

(** C8: an [OrderData] or [Order] is read back unchanged from its JSON
    text, whatever strings its salt, amounts and signature hold, when its
    two chain identifiers are numbers that JSON writes as numbers and reads
    back, as every finite number checked is. The chain identifiers of the
    client, 1 and 2, are such numbers, and so every order [submitOrder]
    sends is read back unchanged. *)
Theorem encode_decode_roundtrip :
  (forall o : Order,
     reads_back (src_chain (order_data o)) ->
     reads_back (dst_chain (order_data o)) ->
     decode_OrderData (encode_OrderData (order_data o)) = Some (order_data o)
     /\ decode_Order (encode_Order o) = Some o)
  /\ (forall x : Num.number, supported_chain x -> reads_back x)
  /\ (forall (w : World) (st : Swap.State) (o : Order),
        submits w st o ->
        decode_OrderData (encode_OrderData (order_data o)) = Some (order_data o)
        /\ decode_Order (encode_Order o) = Some o).
Proof.
  assert (Hmain : forall o : Order,
            reads_back (src_chain (order_data o)) ->
            reads_back (dst_chain (order_data o)) ->
            decode_OrderData (encode_OrderData (order_data o)) = Some (order_data o)
            /\ decode_Order (encode_Order o) = Some o).
  { intros o Hs Hd. apply NumberText.reads_back_ok in Hs, Hd.
    unfold decode_OrderData, decode_Order, encode_OrderData, encode_Order.
    rewrite (parse_OrderData_text _ Hs Hd), (parse_Order_text _ Hs Hd).
    split; [apply OrderData_of_value_value | apply get_Order_value]. }
  split; [exact Hmain|]. split; [exact supported_chain_reads_back|].
  intros w st o H. apply submits_inv in H. destruct H as [Hod _].
  destruct (orderData_supported w st) as [Hs Hd]. rewrite <- Hod in Hs, Hd.
  apply Hmain; apply supported_chain_reads_back; assumption.
Qed.

Lemma encode_decode_roundtrip_witness :
  (reads_back (src_chain (order_data scenario_a))
   /\ reads_back (dst_chain (order_data scenario_a))
   /\ decode_Order (encode_Order scenario_a) = Some scenario_a)
  /\ (reads_back (src_chain (order_data wide_order))
      /\ reads_back (dst_chain (order_data wide_order))
      /\ decode_Order (encode_Order wide_order) = Some wide_order)
  /\ (supported_chain (Num.of_Z 2) /\ reads_back (Num.of_Z 2))
  /\ (submits accepting evm_state evm_order
      /\ decode_Order (encode_Order evm_order) = Some evm_order).
Proof.
  assert (Hs : reads_back (src_chain (order_data scenario_a)))
    by (split; vm_compute; reflexivity).
  assert (Hd : reads_back (dst_chain (order_data scenario_a)))
    by (split; vm_compute; reflexivity).
  assert (Hs' : reads_back (src_chain (order_data wide_order)))
    by (split; vm_compute; reflexivity).
  assert (Hd' : reads_back (dst_chain (order_data wide_order)))
    by (split; vm_compute; reflexivity).
  assert (H2 : supported_chain (Num.of_Z 2)) by (right; reflexivity).
  assert (Hsub : submits accepting evm_state evm_order)
    by (unfold submits; vm_compute; left; reflexivity).
  split; [|split; [|split]].
  - split; [exact Hs|]. split; [exact Hd|].
    exact (proj2 (proj1 encode_decode_roundtrip scenario_a Hs Hd)).
  - split; [exact Hs'|]. split; [exact Hd'|].
    exact (proj2 (proj1 encode_decode_roundtrip wide_order Hs' Hd')).
  - split; [exact H2|].
    exact (proj1 (proj2 encode_decode_roundtrip) (Num.of_Z 2) H2).
  - split; [exact Hsub|].
    exact (proj2 (proj2 (proj2 encode_decode_roundtrip)
                    accepting evm_state evm_order Hsub)).
Defined.

(** Every order [submitOrder] sends is read back unchanged. *)
Corollary submitted_order_roundtrip (w : World) (st : Swap.State) (o : Order) :
  submits w st o -> decode_Order (encode_Order o) = Some o.
Proof.
  intros H. apply submits_inv in H. destruct H as [Hod _].
  destruct (orderData_supported w st) as [Hs Hd]. rewrite <- Hod in Hs, Hd.
  unfold decode_Order, encode_Order.
  rewrite (parse_Order_value _ Hs Hd). apply get_Order_value.
Qed.

(** ** Sessions *)

Lemma requests_app (l1 l2 : list Effect) :
  requests (l1 ++ l2) = (requests l1 ++ requests l2)%list.
Proof. apply flat_map_app. Qed.

Lemma secret_requests_app (l1 l2 : list Effect) :
  secret_requests (l1 ++ l2) = (secret_requests l1 ++ secret_requests l2)%list.
Proof. unfold secret_requests. rewrite requests_app. apply filter_app. Qed.

Lemma secret_requests_quiet (log : list Effect) (e : Effect) :
  match e with Http _ => False | _ => True end ->
  secret_requests (log ++ [e]) = secret_requests log.
Proof.
  intros He. rewrite secret_requests_app.
  destruct e; [| |destruct He]; apply app_nil_r.
Qed.

Lemma signOrder_secret_requests (w : World) (st : Swap.State) (od : OrderData)
    (log : list Effect) :
  secret_requests (snd (Swap.signOrder w st od log)) = secret_requests log.
Proof.
  unfold Swap.signOrder, bind, ret, await, alert, emit.
  destruct (String.eqb (Swap.tokensPair st) "ETHXLM").
  - destruct (ethereum w); cbn [negb snd].
    + destruct (evmSignMessage w _); reflexivity.
    + apply secret_requests_quiet. exact I.
  - destruct (String.eqb (Swap.tokensPair st) "XLMETH"); [|reflexivity].
    destruct (negb (Swap.freighterConnected st) || Swap.falsy (Swap.stellarAddress st));
      cbn [snd].
    + apply secret_requests_quiet. exact I.
    + destruct (kitSignMessage w _); reflexivity.
Qed.

Lemma after_post_secret_requests (w : World) (o : Order) :
  secret_requests (after_post w o) = [].
Proof.
  unfold after_post.
  destruct (restRequest w _) as [d|]; [destruct (JSON.truthy (data d))|];
    reflexivity.
Qed.

Lemma submitOrder_secret_requests (w : World) (st : Swap.State)
    (log : list Effect) :
  secret_requests (snd (Swap.submitOrder w st log)) = secret_requests log.
Proof.
  pose proof (signOrder_secret_requests w st (Swap.orderData w st) log) as Hsec.
  destruct (Swap.signOrder w st (Swap.orderData w st) log) as [[[sg|]|] log1] eqn:Hs;
    cbn [snd] in Hsec.
  - rewrite (submitOrder_signed w st log log1 sg Hs). cbn [snd].
    rewrite secret_requests_app, Hsec.
    change (Http ?r :: ?l) with ([Http r] ++ l)%list.
    rewrite secret_requests_app, after_post_secret_requests.
    change (secret_requests [Http (order_request w
              {| order_data := Swap.orderData w st; signature := sg |})])
      with (@nil Request).
    apply app_nil_r.
  - rewrite (submitOrder_unsigned w st log log1 (Fulfilled tt) Hs). exact Hsec.
  - rewrite (submitOrder_unsigned w st log log1 Rejected Hs). exact Hsec.
Qed.

Lemma step_secret_requests (w : World) (st : Swap.State) (ev : Swap.Event)
    (log : list Effect) :
  secret_requests (snd (Swap.step w st ev log)) = secret_requests log.
Proof.
  destruct ev as [v|[a|] acc| |accs bal|accs bal|g|v| | |v|b]; cbn [Swap.step].
  - destruct (String.eqb v (Swap.tokensPair st)); reflexivity.
  - destruct acc; reflexivity.
  - reflexivity.
  - destruct (Swap.freighterConnected st); reflexivity.
  - destruct (Swap.metamaskConnected st); [reflexivity|].
    destruct (ethereum w); cbn [negb snd].
    + destruct accs as [[|a l]|]; cbn [snd].
      * reflexivity.
      * destruct bal; [reflexivity|].
        destruct (Swap.falsy (Some a)); [reflexivity|].
        apply secret_requests_quiet. exact I.
      * apply secret_requests_quiet. exact I.
    + apply secret_requests_quiet. exact I.
  - destruct (ethereum w); reflexivity.
  - destruct (Swap.metamaskConnected st && ethereum w && negb g);
      [apply secret_requests_quiet; exact I | reflexivity].
  - reflexivity.
  - destruct (Swap.maxRendered st); reflexivity.
  - destruct (Swap.submitDisabled st); [reflexivity|].
    cbn [snd]. apply submitOrder_secret_requests.
  - reflexivity.
  - reflexivity.
Qed.

Lemma run_secret_requests (evs : list (World * Swap.Event)) :
  forall st log,
    secret_requests (snd (Swap.run evs st log)) = secret_requests log.
Proof.
  induction evs as [|[w ev] evs IH]; intros st log; [reflexivity|].
  cbn [Swap.run].
  pose proof (step_secret_requests w st ev log) as Hstep.
  destruct (Swap.step w st ev log) as [st' log']. cbn [snd] in Hstep.
  rewrite IH. exact Hstep.
Qed.

(** C7 against the code: in every session of the component, from any
    state, no request goes to the secret endpoint, whatever the relayer
    answers; the session of a maker who swaps 100 XLM ends with the order
    posted and nothing after it. The component imports [postSecret] and
    never calls it. *)
Theorem session_never_posts_secret :
  (forall evs st, secret_requests (snd (Swap.run evs st [])) = [])
  /\ snd (Swap.run xlm_session Swap.initial [])
     = [Http (order_request accepting xlm_session_order)].
Proof.
  split.
  - intros evs st. apply run_secret_requests.
  - vm_compute. reflexivity.
Qed.

(** ** Amounts *)

(** *** Digits and the numeral of an integer *)

Module Digits.










(** *** The numeral of an integer *)

Import DecimalString.










End Digits.

(** *** The digits [Num.shortest] gives *)

Module Shortest.

Import Digits.




(** *** Removing the zeros at the end *)










End Shortest.

(** *** The numerals [Num.format] writes *)

Module NumeralText.

Import Digits Shortest.





















End NumeralText.





(** Amounts with a fraction, an exponent or many digits whose order has
    two numerals of positive numbers. *)
Lemma fractional_amounts_positive :
  Forall (fun v => Exact.positive_decimal v = true
                   /\ Exact.positive_decimal (take_of v) = true)
    ["0.5"; "250.5"; "20000"; "1e-7"; "100"; "12345678901234567890"].
Proof. repeat constructor; vm_compute; reflexivity. Qed.

(** Numerals of positive numbers whose product is no positive double: it
    is rounded to zero or to infinity. A negative amount gives a negative
    [take_amount]. *)
Lemma extreme_amounts_take_not_positive :
  Exact.positive_decimal "1e-400" = true /\ take_of "1e-400" = "0"
  /\ Exact.positive_decimal "1e999" = true /\ take_of "1e999" = "Infinity"
  /\ take_of "-5" = "-4.75"
  /\ take_of "abc" = "NaN".
Proof. repeat split; vm_compute; reflexivity. Qed.

(** C2, as stated, fails: for the amount 3 the product is rounded in
    binary, and [take_amount] is not the decimal 2.85. *)
Lemma take_amount_of_3_is_not_exact :
  make_amount (Swap.orderData accepting (amount_state "3")) = "3"
  /\ take_amount (Swap.orderData accepting (amount_state "3"))
     = "2.8499999999999996"
  /\ Exact.is_95_percent
       (make_amount (Swap.orderData accepting (amount_state "3")))
       (take_amount (Swap.orderData accepting (amount_state "3"))) = false.
Proof. repeat split; vm_compute; reflexivity. Qed.

(** C2, amended: [take_amount] is the string form of a binary64 product,
    [parseFloat(make_amount)] times the double nearest to 0.95, which is
    8556839292003942 * 2^-53 and not 0.95, rounded to nearest; it is the
    exact decimal where the rounding happens to give it, as for the amount
    100, whose order has [make_amount] 100 and [take_amount] 95. *)
Theorem take_amount_is_double_product (w : World) (st : Swap.State) :
  let od := Swap.orderData w st in
  make_amount od = Swap.fromAmount st
  /\ take_amount od
     = Num.toString
         (SFmul 53 1024 (Num.parseFloat (make_amount od))
            (S754_finite false 8556839292003942 (-53)))
  /\ 8556839292003942 * 100 <> 95 * 2 ^ 53
  /\ (Swap.fromAmount st = "100" ->
      make_amount od = "100" /\ take_amount od = "95"
      /\ Exact.is_95_percent (make_amount od) (take_amount od) = true).
Proof.
  cbv zeta. unfold Swap.orderData. cbn [make_amount take_amount].
  split; [reflexivity|]. split; [reflexivity|]. split; [vm_compute; discriminate|].
  intros ->. repeat split; vm_compute; reflexivity.
Qed.

Lemma take_amount_is_double_product_witness :
  Swap.fromAmount (amount_state "100") = "100"
  /\ take_amount (Swap.orderData accepting (amount_state "100")) = "95".
Proof.
  split; [reflexivity|].
  exact (proj1 (proj2 (proj2 (proj2 (proj2
           (take_amount_is_double_product accepting (amount_state "100"))))
           eq_refl))).
Defined.




(** * Further properties of the client *)

(** ** [submitOrder], case by case *)

Lemma submitOrder_cases (w : World) (st : Swap.State) (log : list Effect) :
  let od := Swap.orderData w st in
  let msg := encode_OrderData od in
  let sent sg :=
    (Fulfilled tt,
     (log ++ Http (order_request w {| order_data := od; signature := sg |})
          :: after_post w {| order_data := od; signature := sg |})%list) in
  Swap.submitOrder w st log =
    if String.eqb (Swap.tokensPair st) "ETHXLM" then
      if ethereum w then
        match evmSignMessage w msg with
        | Some sig =>
            sent {| signed_message := sig;
                    signer_address := Swap.or_else (Swap.evmAddress st) "" |}
        | None => (Rejected, log)
        end
      else (Fulfilled tt, (log ++ [Alert "MetaMask not installed"])%list)
    else if String.eqb (Swap.tokensPair st) "XLMETH" then
      if negb (Swap.freighterConnected st) || Swap.falsy (Swap.stellarAddress st)
      then (Fulfilled tt, (log ++ [Alert "Freighter not connected"])%list)
      else
        match kitSignMessage w msg with
        | Some (sig, reported) =>
            sent {| signed_message := sig;
                    signer_address :=
                      Swap.or_else reported
                        (Swap.or_else (Swap.stellarAddress st) "") |}
        | None => (Rejected, log)
        end
    else sent {| signed_message := ""; signer_address := "" |}.
Proof.
  cbv zeta. unfold encode_OrderData.
  destruct (String.eqb (Swap.tokensPair st) "ETHXLM") eqn:He.
  - destruct (ethereum w) eqn:Hw.
    + destruct (evmSignMessage w _) as [sig|] eqn:Hs.
      * apply submitOrder_signed. unfold Swap.signOrder, bind, ret, await.
        rewrite He, Hw, Hs. reflexivity.
      * apply (submitOrder_unsigned w st log log Rejected).
        unfold Swap.signOrder, bind, ret, await. rewrite He, Hw, Hs. reflexivity.
    + apply (submitOrder_unsigned w st log _ (Fulfilled tt)).
      unfold Swap.signOrder, bind, ret, alert, emit. rewrite He, Hw. reflexivity.
  - destruct (String.eqb (Swap.tokensPair st) "XLMETH") eqn:Hx.
    + destruct (negb (Swap.freighterConnected st) || Swap.falsy (Swap.stellarAddress st))
        eqn:Hc.
      * apply (submitOrder_unsigned w st log _ (Fulfilled tt)).
        unfold Swap.signOrder, bind, ret, alert, emit. rewrite He, Hx, Hc. reflexivity.
      * destruct (kitSignMessage w _) as [[sig reported]|] eqn:Hs.
        -- apply submitOrder_signed. unfold Swap.signOrder, bind, ret, await.
           rewrite He, Hx, Hc, Hs. reflexivity.
        -- apply (submitOrder_unsigned w st log log Rejected).
           unfold Swap.signOrder, bind, ret, await. rewrite He, Hx, Hc, Hs. reflexivity.
    + apply submitOrder_signed. unfold Swap.signOrder, ret. rewrite He, Hx. reflexivity.
Qed.
